(** * InsightHub sensor ingestion endpoint: validation and request handler

    A shallow embedding of [src/server/index.ts] (with the interfaces of
    [src/server/types.ts]) and the properties of its ingestion contract.

    - JavaScript numbers are IEEE-754 binary64 values, taken as the
      standard library's [spec_float];
    - a request body is a JavaScript value as [express.json()] hands it over
      (objects are finite maps from property names to values);
    - the handler runs in a small monad that records the calls made to the
      authentication and storage providers, the console and the response
      object, and that carries the exceptions caught by its [try]/[catch]. *)

From Stdlib Require Import ZArith Bool List Ascii String Lia.
From Stdlib Require Import SpecFloat.
From stdpp Require Import base option gmap strings.

Local Open Scope Z_scope.
Local Open Scope string_scope.

(** ** Numbers *)

Module Num.

(** A JavaScript number. *)
Definition number : Type := spec_float.

(** binary64 *)
Definition prec : Z := 53.
Definition emax : Z := 1024.

(** The number denoted by an integer literal of the source. *)
Definition of_Z (z : Z) : number := binary_normalize prec emax z 0 false.

Definition zero : number := of_Z 0.
Definition minus_fifty : number := of_Z (-50).
Definition one_hundred_fifty : number := of_Z 150.
Definition infinity : number := S754_infinity false.

Definition is_nan (x : number) : bool :=
  match x with S754_nan => true | _ => false end.

Definition is_finite (x : number) : bool :=
  match x with S754_zero _ | S754_finite _ _ _ => true | _ => false end.

(** [x < y], [x > y] of the language, and the orders [<=], [>=] used to
    state ranges. *)
Definition lt (x y : number) : bool := SFltb x y.
Definition gt (x y : number) : bool := SFltb y x.
Definition le (x y : number) : bool := SFleb x y.
Definition ge (x y : number) : bool := SFleb y x.

(** A well-formed binary64 datum: the only numbers a program handles. *)
Definition valid (x : number) : bool := valid_binary prec emax x.

(** What a number other than NaN amounts to: an integer count of the
    smallest unit [2^-1074], or an infinity. *)
Inductive extended : Type :=
| MinusInfinity
| Units (z : Z)
| PlusInfinity.

Definition extended_compare (a b : extended) : comparison :=
  match a, b with
  | MinusInfinity, MinusInfinity => Eq
  | MinusInfinity, _ => Lt
  | Units _, MinusInfinity => Gt
  | Units x, Units y => (x ?= y)%Z
  | Units _, PlusInfinity => Lt
  | PlusInfinity, PlusInfinity => Eq
  | PlusInfinity, _ => Gt
  end.

Definition units (x : number) : option extended :=
  match x with
  | S754_nan => None
  | S754_infinity s => Some (if s then MinusInfinity else PlusInfinity)
  | S754_zero _ => Some (Units 0)
  | S754_finite s m e =>
      Some (Units ((if s then -1 else 1) * (Z.pos m * 2 ^ (e + 1074))))
  end.

End Num.

(** ** Values *)

#[warnings="-register-all"]
Inductive value : Type :=
| VUndefined
| VNull
| VBool (b : bool)
| VNum (n : Num.number)
| VStr (s : string)
| VArr (xs : list value)
| VObj (props : gmap string value).

(** [typeof v] *)
Definition typeof (v : value) : string :=
  match v with
  | VUndefined => "undefined"
  | VNull => "object"
  | VBool _ => "boolean"
  | VNum _ => "number"
  | VStr _ => "string"
  | VArr _ => "object"
  | VObj _ => "object"
  end.

(** [ToBoolean v]: what [!v], [if (v)] and [v || w] test. *)
Definition truthy (v : value) : bool :=
  match v with
  | VUndefined | VNull => false
  | VBool b => b
  | VNum n =>
      match n with
      | S754_zero _ | S754_nan => false
      | _ => true
      end
  | VStr s => negb (String.eqb s "")
  | VArr _ | VObj _ => true
  end.

(** ** Completions: a normal result or a thrown exception *)

Inductive exn : Type :=
| TypeError                       (* property read on [null] or [undefined] *)
| Rejection (reason : value).     (* a provider call that rejects *)

Inductive completion (A : Type) : Type :=
| Normal (a : A)
| Throw (e : exn).
Arguments Normal {A} a.
Arguments Throw {A} e.

#[global] Instance completion_ret : MRet completion := @Normal.
#[global] Instance completion_bind : MBind completion := fun A B k c =>
  match c with
  | Normal a => k a
  | Throw e => Throw e
  end.

(** [v.k] for a property name [k] that no built-in prototype defines (the
    only names read by the program are [asset_id], [temperature],
    [pressure], [vibration] and [energy_consumption]): the own property of
    an object, [undefined] when there is none or when [v] is a primitive or
    an array, and a [TypeError] when [v] is [null] or [undefined]. *)
Definition get (v : value) (k : string) : completion value :=
  match v with
  | VUndefined | VNull => Throw TypeError
  | VObj props => Normal (default VUndefined (props !! k))
  | VBool _ | VNum _ | VStr _ | VArr _ => Normal VUndefined
  end.

(** The number a value is, when its type is [number]. *)
Definition as_number (v : value) : option Num.number :=
  match v with
  | VNum n => Some n
  | _ => None
  end.

(** [isNaN(v)] and the comparisons [v < c], [v > c] against a numeric
    literal, for [v] of type [number]. The program evaluates them on numbers
    only ([isNaN] behind the [typeof] test, the comparisons after the loop
    over [numericFields]); the coercion of other operands is not modelled,
    and these definitions answer [false] there. *)
Definition isNaN (v : value) : bool :=
  match as_number v with
  | Some n => Num.is_nan n
  | None => false
  end.

Definition js_lt (v : value) (c : Num.number) : bool :=
  match as_number v with
  | Some n => Num.lt n c
  | None => false
  end.

Definition js_gt (v : value) (c : Num.number) : bool :=
  match as_number v with
  | Some n => Num.gt n c
  | None => false
  end.

(** ** Validation *)

Definition numericFields : list string :=
  ["temperature"; "pressure"; "vibration"; "energy_consumption"].

(** The [for ... of] loop over the numeric fields: [Some msg] when the loop
    body returns [msg], [None] when the loop runs to its end. *)
Fixpoint check_numeric (sensorData : value) (fields : list string)
  : completion (option string) :=
  match fields with
  | [] => Normal None
  | field :: rest =>
      value ← get sensorData field;
      if negb (String.eqb (typeof value) "number") || isNaN value
      then Normal (Some ("Invalid " +:+ field))
      else check_numeric sensorData rest
  end.

(** [validateSensorData(data)]; the result [null] is [Normal None]. Each
    [sensorData.k] of the source is one [get], and [||] evaluates its right
    operand only when the left one is false. *)
Definition validateSensorData (data : value) : completion (option string) :=
  let sensorData := data in
  a ← get sensorData "asset_id";
  if negb (truthy a) then Normal (Some "Invalid asset_id") else
  a' ← get sensorData "asset_id";
  if negb (String.eqb (typeof a') "string") then Normal (Some "Invalid asset_id") else
  returned ← check_numeric sensorData numericFields;
  match returned with
  | Some msg => Normal (Some msg)
  | None =>
      t ← get sensorData "temperature";
      if js_lt t Num.minus_fifty
      then Normal (Some "Temperature must be between -50 and 150") else
      t' ← get sensorData "temperature";
      if js_gt t' Num.one_hundred_fifty
      then Normal (Some "Temperature must be between -50 and 150") else
      p ← get sensorData "pressure";
      if js_lt p Num.zero
      then Normal (Some "Pressure must be non-negative") else
      v ← get sensorData "vibration";
      if js_lt v Num.zero
      then Normal (Some "Vibration must be non-negative") else
      e ← get sensorData "energy_consumption";
      if js_lt e Num.zero
      then Normal (Some "Energy consumption must be non-negative") else
      Normal None
  end.

(** ** Requests, responses and the two providers *)

(** [SensorParams], [SensorQuery], the [Authorization] header and the parsed
    body of a request. *)
Record request : Type := {
  params_id : option string;
  headers_authorization : option string;
  query_timestamp : option string;
  body : value
}.

(** [ErrorResponse | SuccessResponse] *)
Inductive response_body : Type :=
| ErrorResponse (error : string)
| SuccessResponse (message : string).

(** What [auth.getUser] resolves to: [{ data: { user }, error }]. *)
Record UserResponse : Type := { user : value; authError : value }.

(** What [from(table).insert(row)] resolves to: [{ error }]. *)
Record InsertResponse : Type := { insertError : value }.

(** The object literal handed to [insert]. *)
Record row : Type := {
  row_asset_id : value;
  row_temperature : value;
  row_pressure : value;
  row_vibration : value;
  row_energy_consumption : value;
  row_timestamp : string
}.

(** The world around one request: how the authentication provider and the
    storage provider answer (a resolved value, or a rejection), and what
    [new Date().toISOString()] reads on the clock. *)
Record world : Type := {
  getUser : option string -> completion UserResponse;
  insert : string -> row -> completion InsertResponse;
  toISOString : string
}.

(** What [console.error] is given after its label. *)
Inductive logged : Type :=
| LogValue (v : value)
| LogExn (e : exn).

(** The observable actions of the handler, in the order they happen; calls
    to a provider are recorded with the answer they got. *)
Inductive action : Type :=
| GetUser (token : option string) (answer : completion UserResponse)
| Insert (table : string) (r : row) (answer : completion InsertResponse)
| Now (iso : string)
| ConsoleError (label : string) (detail : logged)
| Respond (status : Z) (json : response_body).

(** ** The handler monad: a world to read, a trace to extend, exceptions *)

Definition handlerM (A : Type) : Type :=
  world -> list action -> completion A * list action.

#[global] Instance handlerM_ret : MRet handlerM := fun A a _ tr => (Normal a, tr).
#[global] Instance handlerM_bind : MBind handlerM := fun A B k m w tr =>
  match m w tr with
  | (Normal a, tr') => k a w tr'
  | (Throw e, tr') => (Throw e, tr')
  end.

(** A pure computation that may throw. *)
Definition lift {A} (c : completion A) : handlerM A := fun _ tr => (c, tr).

(** [try { m } catch (error) { h error }] *)
Definition try_catch {A} (m : handlerM A) (h : exn -> handlerM A) : handlerM A :=
  fun w tr =>
    match m w tr with
    | (Normal a, tr') => (Normal a, tr')
    | (Throw e, tr') => h e w tr'
    end.

(** [await supabaseClient.auth.getUser(token)] *)
Definition await_getUser (token : option string) : handlerM UserResponse :=
  fun w tr => (getUser w token, (tr ++ [GetUser token (getUser w token)])%list).

(** [await supabaseClient.from(table).insert(r)] *)
Definition await_insert (table : string) (r : row) : handlerM InsertResponse :=
  fun w tr => (insert w table r, (tr ++ [Insert table r (insert w table r)])%list).

(** [new Date().toISOString()] *)
Definition now : handlerM string :=
  fun w tr => (Normal (toISOString w), (tr ++ [Now (toISOString w)])%list).

(** [console.error(label, detail)] *)
Definition console_error (label : string) (detail : logged) : handlerM unit :=
  fun _ tr => (Normal tt, (tr ++ [ConsoleError label detail])%list).

(** [res.status(status).json(json)] *)
Definition respond (status : Z) (json : response_body) : handlerM unit :=
  fun _ tr => (Normal tt, (tr ++ [Respond status json])%list).

(** ** Strings of the header *)

(** [h.startsWith(p)] *)
Definition startsWith (h p : string) : bool := String.prefix p h.

(** [s.split(sep)] for a separator of one character. *)
Fixpoint split (s : string) (sep : ascii) : list string :=
  match s with
  | EmptyString => [EmptyString]
  | String c s' =>
      if Ascii.eqb c sep then EmptyString :: split s' sep
      else match split s' sep with
           | piece :: pieces => String c piece :: pieces
           | [] => [String c EmptyString]
           end
  end.

(** [authHeader.split(' ')[1]]: the token handed to the provider, [None]
    for [undefined]. *)
Definition token_of (authHeader : string) : option string :=
  split authHeader " " !! 1%nat.

(** ** The route handler of [POST /api/ingest-sensor/:id?] *)

(** Lines 90-109: store the reading and answer. *)
Definition store (req : request) : handlerM unit :=
  asset_id ← lift (get (body req) "asset_id");
  temperature ← lift (get (body req) "temperature");
  pressure ← lift (get (body req) "pressure");
  vibration ← lift (get (body req) "vibration");
  energy_consumption ← lift (get (body req) "energy_consumption");
  timestamp ← match query_timestamp req with
              | Some t => if negb (String.eqb t "") then mret t else now
              | None => now
              end;
  answer ← await_insert "sensor_readings"
             {| row_asset_id := asset_id;
                row_temperature := temperature;
                row_pressure := pressure;
                row_vibration := vibration;
                row_energy_consumption := energy_consumption;
                row_timestamp := timestamp |};
  if truthy (insertError answer) then
    console_error "Error inserting sensor data:" (LogValue (insertError answer));;
    respond 500 (ErrorResponse "Failed to store sensor reading")
  else
    respond 200 (SuccessResponse "Sensor reading stored successfully").

(** Lines 83-88, then [store]. *)
Definition validate_then_store (req : request) : handlerM unit :=
  validationError ← lift (validateSensorData (body req));
  match validationError with
  | Some msg =>
      if negb (String.eqb msg "") then respond 400 (ErrorResponse msg)
      else store req
  | None => store req
  end.

(** Lines 111-115: the [catch] block. *)
Definition internal_error (error : exn) : handlerM unit :=
  console_error "Error processing request:" (LogExn error);;
  respond 500 (ErrorResponse "Internal server error").

(** Lines 66-116. The early [return]s of the source are the branches that
    stop here. *)
Definition handler (req : request) : handlerM unit :=
  try_catch
    (let authHeader := headers_authorization req in
     match authHeader with
     | None =>
         respond 401 (ErrorResponse "Missing or invalid Authorization header")
     | Some h =>
         if negb (startsWith h "Bearer ") then
           respond 401 (ErrorResponse "Missing or invalid Authorization header")
         else
           let token := token_of h in
           answer ← await_getUser token;
           if truthy (authError answer) || negb (truthy (user answer)) then
             respond 401 (ErrorResponse "Invalid token")
           else
             validate_then_store req
     end)
    internal_error.

(** The trace of one request in a world. *)
Definition run (w : world) (req : request) : list action :=
  snd (handler req w []).

(** What a trace contains. *)
Definition inserts (tr : list action) : list (string * row) :=
  omap (fun a => match a with Insert table r _ => Some (table, r) | _ => None end) tr.

Definition getUser_calls (tr : list action) : list (option string) :=
  omap (fun a => match a with GetUser token _ => Some token | _ => None end) tr.

Definition responses (tr : list action) : list (Z * response_body) :=
  omap (fun a => match a with Respond status json => Some (status, json) | _ => None end) tr.

(** ** Vocabulary of the contract *)

(** A request body with the five fields given. *)
Definition reading_props (a t p v e : value) : gmap string value :=
  <["asset_id" := a]> (<["temperature" := t]> (<["pressure" := p]>
    (<["vibration" := v]> (<["energy_consumption" := e]> ∅)))).

Definition reading (a t p v e : value) : value := VObj (reading_props a t p v e).

(** The own property [k] of a payload, if any. *)
Definition property (data : value) (k : string) : option value :=
  match data with
  | VObj props => props !! k
  | _ => None
  end.

(** A property that is a number other than NaN. *)
Definition well_formed_number (o : option value) : Prop :=
  exists n, o = Some (VNum n) /\ Num.is_nan n = false.

(** A property that is missing, not a number, or NaN. *)
Definition offending (o : option value) : Prop :=
  o = None \/ (exists v, o = Some v /\ forall n, v <> VNum n) \/ o = Some (VNum S754_nan).

(** The ranges, in the words of the contract; [temperature_in_range_units]
    and [non_negative_units] below read them on the values of the numbers. *)
Definition temperature_in_range (t : Num.number) : bool :=
  Num.le Num.minus_fifty t && Num.le t Num.one_hundred_fifty.

Definition non_negative (x : Num.number) : bool := Num.ge x Num.zero.

(** First violated range rule, in the order temperature, pressure,
    vibration, energy consumption. *)
Definition first_violation (t p v e : Num.number) : option string :=
  if negb (temperature_in_range t) then Some "Temperature must be between -50 and 150"
  else if negb (non_negative p) then Some "Pressure must be non-negative"
  else if negb (non_negative v) then Some "Vibration must be non-negative"
  else if negb (non_negative e) then Some "Energy consumption must be non-negative"
  else None.

Definition range_messages : list string :=
  ["Temperature must be between -50 and 150";
   "Pressure must be non-negative";
   "Vibration must be non-negative";
   "Energy consumption must be non-negative"].

Definition invalid_messages : list string :=
  "Invalid asset_id" :: map (fun field => "Invalid " +:+ field) numericFields.

Definition error_messages : list string := (invalid_messages ++ range_messages)%list.

(** ** Vocabulary of the proofs; sample worlds and requests *)

(** The test of the loop body on one field value. *)
Definition rejected_as_number (v : value) : bool :=
  negb (String.eqb (typeof v) "number") || isNaN v.

Definition asset_id_accepted (o : option value) : Prop :=
  exists s, o = Some (VStr s) /\ s <> "".

(** A request whose header carries a bearer token that the provider
    resolves to an identity, without an error. *)
Definition authenticated (w : world) (req : request) : Prop :=
  exists h answer,
    headers_authorization req = Some h /\
    startsWith h "Bearer " = true /\
    getUser w (token_of h) = Normal answer /\
    truthy (authError answer) = false /\
    truthy (user answer) = true.

(** The timestamp of the stored row: the query parameter when it is a
    non-empty string, the clock otherwise. *)
Definition timestamp_of (w : world) (req : request) : string :=
  match query_timestamp req with
  | Some t => if String.eqb t "" then toISOString w else t
  | None => toISOString w
  end.

(** The row built from a request. *)
Definition row_of (w : world) (req : request) : row :=
  {| row_asset_id := default VUndefined (property (body req) "asset_id");
     row_temperature := default VUndefined (property (body req) "temperature");
     row_pressure := default VUndefined (property (body req) "pressure");
     row_vibration := default VUndefined (property (body req) "vibration");
     row_energy_consumption := default VUndefined (property (body req) "energy_consumption");
     row_timestamp := timestamp_of w req |}.

(** What follows the insert, by its answer. *)
Definition after_insert (answer : completion InsertResponse) : list action :=
  match answer with
  | Normal a =>
      if truthy (insertError a)
      then [ConsoleError "Error inserting sensor data:" (LogValue (insertError a));
            Respond 500 (ErrorResponse "Failed to store sensor reading")]
      else [Respond 200 (SuccessResponse "Sensor reading stored successfully")]
  | Throw e =>
      [ConsoleError "Error processing request:" (LogExn e);
       Respond 500 (ErrorResponse "Internal server error")]
  end.

(** Reading the clock, when the query gives no usable timestamp. *)
Definition clock_reads (w : world) (req : request) : list action :=
  match query_timestamp req with
  | Some t => if String.eqb t "" then [Now (toISOString w)] else []
  | None => [Now (toISOString w)]
  end.

(** Running the monad by hand. *)
Ltac run_handlerM :=
  repeat (unfold mbind, handlerM_bind, mret, handlerM_ret, try_catch, internal_error,
            lift, now, await_insert, await_getUser, console_error, respond; cbn).

(** What follows a successful token check. *)
Definition after_token (w : world) (req : request) : list action :=
  match validateSensorData (body req) with
  | Throw e =>
      [ConsoleError "Error processing request:" (LogExn e);
       Respond 500 (ErrorResponse "Internal server error")]
  | Normal (Some msg) => [Respond 400 (ErrorResponse msg)]
  | Normal None =>
      clock_reads w req ++
      Insert "sensor_readings" (row_of w req) (insert w "sensor_readings" (row_of w req))
      :: after_insert (insert w "sensor_readings" (row_of w req))
  end%list.

(** The paths through the handler, each with the trace it leaves. *)
Inductive path (w : world) (req : request) : list action -> Prop :=
| path_no_bearer :
    (forall h, headers_authorization req = Some h -> startsWith h "Bearer " = false) ->
    path w req [Respond 401 (ErrorResponse "Missing or invalid Authorization header")]
| path_provider_throws h e :
    headers_authorization req = Some h -> startsWith h "Bearer " = true ->
    getUser w (token_of h) = Throw e ->
    path w req [GetUser (token_of h) (Throw e);
                ConsoleError "Error processing request:" (LogExn e);
                Respond 500 (ErrorResponse "Internal server error")]
| path_token_rejected h answer :
    headers_authorization req = Some h -> startsWith h "Bearer " = true ->
    getUser w (token_of h) = Normal answer ->
    truthy (authError answer) = true \/ truthy (user answer) = false ->
    path w req [GetUser (token_of h) (Normal answer);
                Respond 401 (ErrorResponse "Invalid token")]
| path_token_accepted h answer :
    headers_authorization req = Some h -> startsWith h "Bearer " = true ->
    getUser w (token_of h) = Normal answer ->
    truthy (authError answer) = false -> truthy (user answer) = true ->
    path w req (GetUser (token_of h) (Normal answer) :: after_token w req).

(** The same request with another path parameter. *)
Definition with_params_id (id : option string) (req : request) : request :=
  {| params_id := id;
     headers_authorization := headers_authorization req;
     query_timestamp := query_timestamp req;
     body := body req |}.

Definition num (z : Z) : value := VNum (Num.of_Z z).

(** 0.5 *)
Definition one_half : value := VNum (binary_normalize Num.prec Num.emax 1 (-1) false).

(** A provider that knows the token [good] only, and a store that accepts
    every row. *)
Definition sample_world : world :=
  {| getUser := fun token =>
       if bool_decide (token = Some "good")
       then Normal {| user := VObj {["id" := VStr "u1"]}; authError := VNull |}
       else Normal {| user := VNull;
                      authError := VObj {["message" := VStr "invalid JWT"]} |};
     insert := fun _ _ => Normal {| insertError := VNull |};
     toISOString := "2025-03-25T19:20:21.000Z" |}.

(** The same provider in front of a store that refuses every row. *)
Definition refusing_store_error : value :=
  VObj {["code" := VStr "23503"; "message" := VStr "violates foreign key constraint"]}.

Definition refusing_world : world :=
  {| getUser := getUser sample_world;
     insert := fun _ _ => Normal {| insertError := refusing_store_error |};
     toISOString := toISOString sample_world |}.

Definition sample_props : gmap string value :=
  reading_props (VStr "A1") (num 25) (num 10) one_half (num 100).

Definition sample_request : request :=
  {| params_id := None;
     headers_authorization := Some "Bearer good";
     query_timestamp := None;
     body := VObj sample_props |}.

Definition stamped_request : request :=
  {| params_id := Some "A1";
     headers_authorization := Some "Bearer good";
     query_timestamp := Some "2025-01-01T00:00:00.000Z";
     body := VObj sample_props |}.

Definition empty_timestamp_request : request :=
  {| params_id := None;
     headers_authorization := Some "Bearer good";
     query_timestamp := Some "";
     body := VObj sample_props |}.

Definition sample_row (timestamp : string) : row :=
  {| row_asset_id := VStr "A1";
     row_temperature := num 25;
     row_pressure := num 10;
     row_vibration := one_half;
     row_energy_consumption := num 100;
     row_timestamp := timestamp |}.

Definition basic_scheme_request : request :=
  {| params_id := None;
     headers_authorization := Some "Basic dXNlcjpwYXNz";
     query_timestamp := None;
     body := VObj sample_props |}.

Definition bad_token_request : request :=
  {| params_id := None;
     headers_authorization := Some "Bearer expired";
     query_timestamp := None;
     body := VObj sample_props |}.

Definition bad_pressure_props : gmap string value :=
  reading_props (VStr "A1") (num 25) (VStr "high") VNull (num 100).

Definition bad_pressure_request : request :=
  {| params_id := None;
     headers_authorization := Some "Bearer good";
     query_timestamp := None;
     body := VObj bad_pressure_props |}.

Definition infinite_pressure_props : gmap string value :=
  reading_props (VStr "A1") (num 25) (VNum Num.infinity) one_half (num 100).

Definition infinite_pressure_request : request :=
  {| params_id := None;
     headers_authorization := Some "Bearer good";
     query_timestamp := None;
     body := VObj infinite_pressure_props |}.

(** ** Further vocabulary: the handler as a whole *)

(** Whether a string contains a character. *)
Fixpoint contains (c : ascii) (s : string) : bool :=
  match s with
  | EmptyString => false
  | String c' s' => Ascii.eqb c' c || contains c s'
  end.

(** The five properties of the body that the program reads. *)
Definition fields_read : list string := "asset_id" :: numericFields.

(** A provider that is down: every call rejects. *)
Definition provider_down_error : exn :=
  Rejection (VObj {["message" := VStr "fetch failed"]}).

Definition provider_down_world : world :=
  {| getUser := fun _ => Throw provider_down_error;
     insert := insert sample_world;
     toISOString := toISOString sample_world |}.

(** A store that is down: every insert rejects. *)
Definition store_down_world : world :=
  {| getUser := getUser sample_world;
     insert := fun _ _ => Throw provider_down_error;
     toISOString := toISOString sample_world |}.

Definition null_body_request : request :=
  {| params_id := None;
     headers_authorization := Some "Bearer good";
     query_timestamp := None;
     body := VNull |}.

Definition trailing_words_request : request :=
  {| params_id := None;
     headers_authorization := Some "Bearer good and more";
     query_timestamp := None;
     body := VObj sample_props |}.

Definition annotated_request : request :=
  {| params_id := None;
     headers_authorization := Some "Bearer good";
     query_timestamp := None;
     body := VObj (<["comment" := VStr "recalibrated"]> sample_props) |}.

(** A number whose exact value lies between two integers; a number whose
    exact value is zero or more, plus infinity included. Values are counted
    in units of [2^-1074]. *)
Definition value_between (lo hi : Z) (x : Num.number) : Prop :=
  exists z, Num.units x = Some (Num.Units z) /\ lo * 2 ^ 1074 <= z <= hi * 2 ^ 1074.

Definition value_at_least_zero (x : Num.number) : Prop :=
  Num.units x = Some Num.PlusInfinity \/
  exists z, Num.units x = Some (Num.Units z) /\ 0 <= z.

(** [pieces.join(sep)] *)
Fixpoint join (pieces : list string) (sep : ascii) : string :=
  match pieces with
  | [] => ""
  | piece :: rest =>
      match rest with
      | [] => piece
      | _ :: _ => piece +:+ String sep (join rest sep)
      end
  end.

(** ** The schema migration: roles and row-level security

    [supabase/migrations/20250325192021_floating_band.sql]: the [user_role]
    enumeration, the helper [get_user_role()], and the policies of the six
    tables, all of them permissive and granted [TO authenticated]. Row-level
    security is enabled on every table, so a command of an authenticated
    session touches a row only if some policy for that command (or a
    [FOR ALL] policy) admits it: [USING] decides on the rows a [SELECT],
    [UPDATE] or [DELETE] may see, [WITH CHECK] on the rows an [INSERT] or
    [UPDATE] may write (falling back on [USING] when a policy has none), an
    [UPDATE] needs both, and a comparison with a [NULL] role is not true. *)

Module Schema.

(** Line 74. *)
Inductive user_role : Type := admin | engineer | operator.

#[global] Instance user_role_eq_dec : EqDecision user_role.
Proof. solve_decision. Defined.

Inductive table : Type :=
| plants | assets | sensor_readings | alerts | maintenance_logs | user_roles.

#[global] Instance table_eq_dec : EqDecision table.
Proof. solve_decision. Defined.

Inductive command : Type := SELECT | INSERT | UPDATE | DELETE.

#[global] Instance command_eq_dec : EqDecision command.
Proof. solve_decision. Defined.

(** The columns of a [user_roles] row that the policies read (lines
    141-147): [user_id] may be [NULL], [role] may not. *)
Record user_roles_row : Type := {
  user_id : option string;
  role : user_role
}.

(** [UNIQUE(user_id)]: no two rows share a user id that is not [NULL]. *)
Definition unique_user_id (rows : list user_roles_row) : Prop :=
  NoDup (omap user_id rows).

(** The value of a scalar subquery. *)
Inductive scalar (A : Type) : Type :=
| Null
| Value (a : A)
| MoreThanOneRow.
Arguments Null {A}.
Arguments Value {A} a.
Arguments MoreThanOneRow {A}.

(** Lines 158-167: [SELECT role FROM user_roles WHERE user_id = auth.uid()]. *)
Definition get_user_role (rows : list user_roles_row) (uid : string) : scalar user_role :=
  match filter (fun r => user_id r = Some uid) rows with
  | [] => Null
  | [r] => Value (role r)
  | _ :: _ :: _ => MoreThanOneRow
  end.

(** The expressions of the policies. *)
Inductive expr : Type :=
| TRUE                                   (* true *)
| role_is (r : user_role)                (* get_user_role() = 'r' *)
| role_in (rs : list user_role)          (* get_user_role() IN (...) *)
| own_user_id.                           (* user_id = auth.uid() *)

Inductive policy_for : Type := FOR_ALL | FOR (c : command).

Record policy : Type := {
  pol_name : string;
  pol_table : table;
  pol_for : policy_for;
  pol_using : option expr;
  pol_with_check : option expr
}.

(** Lines 169-256. *)
Definition policies : list policy :=
  [ {| pol_name := "Admins have full access to plants";
       pol_table := plants; pol_for := FOR_ALL;
       pol_using := Some (role_is admin); pol_with_check := Some (role_is admin) |};
    {| pol_name := "Engineers and operators can view plants";
       pol_table := plants; pol_for := FOR SELECT;
       pol_using := Some (role_in [engineer; operator]); pol_with_check := None |};
    {| pol_name := "Admins have full access to assets";
       pol_table := assets; pol_for := FOR_ALL;
       pol_using := Some (role_is admin); pol_with_check := Some (role_is admin) |};
    {| pol_name := "Engineers and operators can view assets";
       pol_table := assets; pol_for := FOR SELECT;
       pol_using := Some (role_in [engineer; operator]); pol_with_check := None |};
    {| pol_name := "All authenticated users can view sensor readings";
       pol_table := sensor_readings; pol_for := FOR SELECT;
       pol_using := Some TRUE; pol_with_check := None |};
    {| pol_name := "System can insert sensor readings";
       pol_table := sensor_readings; pol_for := FOR INSERT;
       pol_using := None; pol_with_check := Some (role_in [admin; engineer]) |};
    {| pol_name := "All authenticated users can view alerts";
       pol_table := alerts; pol_for := FOR SELECT;
       pol_using := Some TRUE; pol_with_check := None |};
    {| pol_name := "Engineers and operators can create alerts";
       pol_table := alerts; pol_for := FOR INSERT;
       pol_using := None;
       pol_with_check := Some (role_in [admin; engineer; operator]) |};
    {| pol_name := "Engineers and admins can update alerts";
       pol_table := alerts; pol_for := FOR UPDATE;
       pol_using := Some (role_in [admin; engineer]);
       pol_with_check := Some (role_in [admin; engineer]) |};
    {| pol_name := "All authenticated users can view maintenance logs";
       pol_table := maintenance_logs; pol_for := FOR SELECT;
       pol_using := Some TRUE; pol_with_check := None |};
    {| pol_name := "Engineers can create and update maintenance logs";
       pol_table := maintenance_logs; pol_for := FOR_ALL;
       pol_using := Some (role_in [admin; engineer]);
       pol_with_check := Some (role_in [admin; engineer]) |};
    {| pol_name := "Admins have full access to user roles";
       pol_table := user_roles; pol_for := FOR_ALL;
       pol_using := Some (role_is admin); pol_with_check := Some (role_is admin) |};
    {| pol_name := "Users can view their own role";
       pol_table := user_roles; pol_for := FOR SELECT;
       pol_using := Some own_user_id; pol_with_check := None |} ].

(** Whether an expression is true for a session whose [get_user_role()] is
    [who] ([None] for [NULL]) on a row that is, or is not, the session
    user's own. *)
Definition eval (who : option user_role) (own : bool) (e : expr) : bool :=
  match e with
  | TRUE => true
  | role_is r => bool_decide (who = Some r)
  | role_in rs => match who with
                  | Some r => bool_decide (r ∈ rs)
                  | None => false
                  end
  | own_user_id => own
  end.

Definition applies (p : policy) (t : table) (c : command) : bool :=
  bool_decide (pol_table p = t) &&
  match pol_for p with
  | FOR_ALL => true
  | FOR c' => bool_decide (c' = c)
  end.

(** An existing row that command [c] may see. *)
Definition row_visible (c : command) (t : table) (who : option user_role) (own : bool)
  : bool :=
  existsb (fun p => applies p t c &&
                    match pol_using p with
                    | Some e => eval who own e
                    | None => false
                    end) policies.

(** A new row that command [c] may write. *)
Definition row_accepted (c : command) (t : table) (who : option user_role) (own : bool)
  : bool :=
  existsb (fun p => applies p t c &&
                    match pol_with_check p, pol_using p with
                    | Some e, _ => eval who own e
                    | None, Some e => eval who own e
                    | None, None => false
                    end) policies.

Definition permitted (c : command) (t : table) (who : option user_role) (own : bool)
  : bool :=
  match c with
  | SELECT | DELETE => row_visible c t who own
  | INSERT => row_accepted c t who own
  | UPDATE => row_visible c t who own && row_accepted c t who own
  end.

(** The role the policies see for a user. *)
Definition session_role (rows : list user_roles_row) (uid : string) : option user_role :=
  match get_user_role rows uid with
  | Value r => Some r
  | Null | MoreThanOneRow => None
  end.

End Schema.

(** A small [user_roles] table. *)
Definition sample_user_roles : list Schema.user_roles_row :=
  [ {| Schema.user_id := Some "u1"; Schema.role := Schema.engineer |};
    {| Schema.user_id := None; Schema.role := Schema.admin |};
    {| Schema.user_id := Some "u2"; Schema.role := Schema.operator |} ].

(** ** Numbers: the order is the order of the values *)

Lemma digits2_pos_size (m : positive) : digits2_pos m = Pos.size m.
Proof. induction m; cbn; congruence. Qed.

Lemma digits2_bounds (m : positive) :
  2 ^ (Z.pos (digits2_pos m) - 1) <= Z.pos m < 2 ^ Z.pos (digits2_pos m).
Proof.
  rewrite digits2_pos_size. split.
  - pose proof (Pos.size_le m) as H.
    apply Pos2Z.pos_le_pos in H. rewrite Pos2Z.inj_pow in H.
    replace (Z.pos (Pos.size m)) with (Z.succ (Z.pos (Pos.size m) - 1)) in H by lia.
    rewrite Z.pow_succ_r in H by lia. lia.
  - pose proof (Pos.size_gt m) as H.
    apply Pos2Z.pos_lt_pos in H. rewrite Pos2Z.inj_pow in H. exact H.
Qed.

(** A canonical mantissa has at most 53 bits, and exactly 53 above the
    smallest exponent. *)
Lemma bounded_facts (m : positive) (e : Z) :
  bounded Num.prec Num.emax m e = true ->
  -1074 <= e /\ Z.pos m < 2 ^ 53 /\ (-1074 < e -> 2 ^ 52 <= Z.pos m).
Proof.
  unfold bounded, canonical_mantissa, fexp, SpecFloat.emin, Num.prec, Num.emax.
  intros H. apply andb_true_iff in H as [Hc _]. apply Z.eqb_eq in Hc.
  pose proof (digits2_bounds m) as [Hlo Hhi].
  set (d := Z.pos (digits2_pos m)) in *.
  assert (Hd : 0 < d) by (unfold d; lia).
  split; [lia|]. split.
  - eapply Z.lt_le_trans; [exact Hhi|]. apply Z.pow_le_mono_r; lia.
  - intros He. assert (d = 53) as Hd53 by lia. rewrite Hd53 in Hlo. exact Hlo.
Qed.

Lemma scaled_lt (m1 m2 : positive) (e1 e2 : Z) :
  bounded Num.prec Num.emax m1 e1 = true -> bounded Num.prec Num.emax m2 e2 = true ->
  e1 < e2 -> Z.pos m1 * 2 ^ (e1 + 1074) < Z.pos m2 * 2 ^ (e2 + 1074).
Proof.
  intros H1 H2 Hlt.
  destruct (bounded_facts m1 e1 H1) as (He1 & Hm1 & _).
  destruct (bounded_facts m2 e2 H2) as (He2 & _ & Hm2).
  specialize (Hm2 ltac:(lia)).
  replace (e2 + 1074) with ((e1 + 1074) + 1 + (e2 - e1 - 1)) by lia.
  rewrite (Z.pow_add_r 2 (e1 + 1074 + 1) (e2 - e1 - 1)), (Z.pow_add_r 2 (e1 + 1074) 1)
    by lia.
  assert (HP : 0 < 2 ^ (e1 + 1074)) by (apply Z.pow_pos_nonneg; lia).
  assert (HQ : 1 <= 2 ^ (e2 - e1 - 1)) by (apply (Z.pow_le_mono_r 2 0); lia).
  change (2 ^ 53) with (2 * 2 ^ 52) in Hm1.
  set (c := 2 ^ 52) in *. assert (0 < c) by reflexivity.
  change (2 ^ 1) with 2.
  set (P := 2 ^ (e1 + 1074)) in *. set (Q := 2 ^ (e2 - e1 - 1)) in *.
  assert (Ha : Z.pos m1 * P < 2 * c * P) by (apply Z.mul_lt_mono_pos_r; assumption).
  assert (Hb : 2 * c * P <= Z.pos m2 * (P * 2)) by nia.
  assert (Hc : Z.pos m2 * (P * 2) * 1 <= Z.pos m2 * (P * 2) * Q)
    by (apply Z.mul_le_mono_nonneg_l; lia).
  lia.
Qed.

Lemma compare_finite (m1 m2 : positive) (e1 e2 : Z) :
  bounded Num.prec Num.emax m1 e1 = true -> bounded Num.prec Num.emax m2 e2 = true ->
  match (e1 ?= e2)%Z with
  | Lt => Lt
  | Gt => Gt
  | Eq => Pos.compare_cont Eq m1 m2
  end = (Z.pos m1 * 2 ^ (e1 + 1074) ?= Z.pos m2 * 2 ^ (e2 + 1074))%Z.
Proof.
  intros H1 H2. destruct (Z.compare_spec e1 e2) as [->|Hlt|Hgt].
  - destruct (bounded_facts m2 e2 H2) as (He2 & _).
    assert (HP : 0 < 2 ^ (e2 + 1074)) by (apply Z.pow_pos_nonneg; lia).
    change (Pos.compare_cont Eq m1 m2) with (Z.pos m1 ?= Z.pos m2)%Z.
    destruct (Z.compare_spec (Z.pos m1) (Z.pos m2)) as [Heq|Hlt|Hgt]; symmetry.
    + apply Z.compare_eq_iff. rewrite Heq. reflexivity.
    + apply Z.compare_lt_iff. apply Z.mul_lt_mono_pos_r; assumption.
    + apply Z.compare_gt_iff. apply Z.mul_lt_mono_pos_r; assumption.
  - symmetry. apply Z.compare_lt_iff. apply scaled_lt; assumption.
  - symmetry. apply Z.compare_gt_iff. apply scaled_lt; assumption.
Qed.

(** On binary64 data, the comparison of the language compares values. *)
Lemma compare_units (x y : Num.number) :
  Num.valid x = true -> Num.valid y = true ->
  SFcompare x y =
  match Num.units x, Num.units y with
  | Some a, Some b => Some (Num.extended_compare a b)
  | _, _ => None
  end.
Proof.
  intros Hx Hy.
  destruct x as [sx|sx| |sx mx ex], y as [sy|sy| |sy my ey];
    cbv beta iota delta [SFcompare Num.units Num.extended_compare];
    try reflexivity; try (destruct sx; reflexivity); try (destruct sy; reflexivity);
    try (destruct sx, sy; reflexivity).
  - destruct sy; f_equal; symmetry; [apply Z.compare_gt_iff|apply Z.compare_lt_iff].
    all: cbn in Hy; destruct (bounded_facts my ey Hy) as (He & _);
      assert (0 < 2 ^ (ey + 1074)) by (apply Z.pow_pos_nonneg; lia); nia.
  - destruct sx; f_equal; symmetry; [apply Z.compare_lt_iff|apply Z.compare_gt_iff].
    all: cbn in Hx; destruct (bounded_facts mx ex Hx) as (He & _);
      assert (0 < 2 ^ (ex + 1074)) by (apply Z.pow_pos_nonneg; lia); nia.
  - cbn in Hx, Hy.
    destruct (bounded_facts mx ex Hx) as (Hex & _).
    destruct (bounded_facts my ey Hy) as (Hey & _).
    assert (0 < 2 ^ (ex + 1074)) by (apply Z.pow_pos_nonneg; lia).
    assert (0 < 2 ^ (ey + 1074)) by (apply Z.pow_pos_nonneg; lia).
    pose proof (compare_finite mx my ex ey Hx Hy) as Hc.
    f_equal. destruct sx, sy.
    + transitivity (CompOpp (match (ex ?= ey)%Z with
                               | Lt => Lt
                               | Gt => Gt
                               | Eq => Pos.compare_cont Eq mx my
                               end)); [destruct (ex ?= ey)%Z; reflexivity|].
      rewrite Hc, Z.compare_antisym, Z.compare_opp. apply CompOpp_involutive.
    + symmetry. apply Z.compare_lt_iff. nia.
    + symmetry. apply Z.compare_gt_iff. nia.
    + rewrite Hc. f_equal; lia.
Qed.

(** The literals of the source. *)
Lemma literals_units :
  Num.units Num.minus_fifty = Some (Num.Units (-50 * 2 ^ 1074)) /\
  Num.units Num.zero = Some (Num.Units 0) /\
  Num.units Num.one_hundred_fifty = Some (Num.Units (150 * 2 ^ 1074)) /\
  Num.valid Num.minus_fifty = true /\ Num.valid Num.zero = true /\
  Num.valid Num.one_hundred_fifty = true.
Proof. repeat split; vm_compute; reflexivity. Qed.

(** [temperature_in_range] and [non_negative] say what they are named for. *)
Lemma temperature_in_range_units (t : Num.number) :
  Num.valid t = true ->
  temperature_in_range t = true <->
  exists z, Num.units t = Some (Num.Units z) /\ -50 * 2 ^ 1074 <= z <= 150 * 2 ^ 1074.
Proof.
  intros Ht. destruct literals_units as (Hlo & _ & Hhi & Hvlo & _ & Hvhi).
  unfold temperature_in_range, Num.le, SFleb.
  rewrite (compare_units _ _ Hvlo Ht), (compare_units _ _ Ht Hvhi), Hlo, Hhi.
  set (lo := -50 * 2 ^ 1074). set (hi := 150 * 2 ^ 1074).
  destruct (Num.units t) as [[|z|]|]; cbn [Num.extended_compare andb];
    try (split; [discriminate | intros (z' & [=] & _)]).
  - destruct (Z.compare_spec lo z), (Z.compare_spec z hi); cbn [andb];
      (split; [intros _; exists z; split; [reflexivity|lia]
              | intros (z' & [= <-] & Hz); try reflexivity; lia])
      || (split; [discriminate | intros (z' & [= <-] & Hz); lia]).
Qed.

Lemma non_negative_units (x : Num.number) :
  Num.valid x = true ->
  non_negative x = true <->
  Num.units x = Some Num.PlusInfinity \/
  exists z, Num.units x = Some (Num.Units z) /\ 0 <= z.
Proof.
  intros Hx. destruct literals_units as (_ & Hzero & _ & _ & Hvzero & _).
  unfold non_negative, Num.ge, SFleb.
  rewrite (compare_units _ _ Hvzero Hx), Hzero.
  destruct (Num.units x) as [[|z|]|]; cbn [Num.extended_compare].
  - split; [discriminate | intros [[=]|(z' & [=] & _)]].
  - destruct (Z.compare_spec 0 z);
      (split; [intros _; right; exists z; split; [reflexivity|lia]
              | intros _; reflexivity])
      || (split; [discriminate | intros [[=]|(z' & [= <-] & Hz)]; lia]).
  - split; [auto | reflexivity].
  - split; [discriminate | intros [[=]|(z' & [=] & _)]].
Qed.

(** ** Numbers: the order on values other than NaN *)

Lemma SFcompare_swap (x y : spec_float) :
  SFcompare y x = CompOpp <$> SFcompare x y.
Proof.
  destruct x as [sx|sx| |sx mx ex], y as [sy|sy| |sy my ey]; cbn;
    try reflexivity; try (destruct sx; reflexivity); try (destruct sy; reflexivity);
    try (destruct sx, sy; reflexivity).
  rewrite (Z.compare_antisym ex ey).
  change (Pos.compare_cont Eq my mx) with (Pos.compare_cont (CompOpp Eq) my mx).
  rewrite <- (Pos.compare_cont_antisym mx my Eq).
  destruct sx, sy; cbn; try reflexivity;
    destruct (ex ?= ey)%Z; cbn; reflexivity.
Qed.

Lemma SFcompare_defined (x y : spec_float) :
  Num.is_nan x = false -> Num.is_nan y = false -> is_Some (SFcompare x y).
Proof.
  destruct x, y; cbn; intros; try discriminate; eauto.
Qed.

(** Away from NaN, [x < y] fails exactly when [y <= x]. *)
Lemma lt_false_iff_le (x y : Num.number) :
  Num.is_nan x = false -> Num.is_nan y = false ->
  Num.lt x y = negb (Num.le y x).
Proof.
  intros Hx Hy. unfold Num.lt, Num.le, SFltb, SFleb.
  rewrite (SFcompare_swap x y).
  destruct (SFcompare_defined x y Hx Hy) as [c ->]. destruct c; reflexivity.
Qed.

Lemma gt_false_iff_le (x y : Num.number) :
  Num.is_nan x = false -> Num.is_nan y = false ->
  Num.gt x y = negb (Num.le x y).
Proof. intros. unfold Num.gt. apply (lt_false_iff_le y x); assumption. Qed.

(** ** Validation: reading fields *)

Lemma get_object (props : gmap string value) (k : string) :
  get (VObj props) k = Normal (default VUndefined (props !! k)).
Proof. reflexivity. Qed.

Lemma get_defined (data : value) (k : string) :
  data <> VNull -> data <> VUndefined ->
  get data k = Normal (default VUndefined (property data k)).
Proof. destruct data; intros; try congruence; reflexivity. Qed.

Lemma rejected_as_number_false (o : option value) :
  rejected_as_number (default VUndefined o) = false <-> well_formed_number o.
Proof.
  unfold well_formed_number. split.
  - destruct o as [[]|]; cbn; try discriminate. intros H; eauto.
  - intros (n & -> & Hn). cbn. exact Hn.
Qed.

Lemma rejected_as_number_true (o : option value) :
  rejected_as_number (default VUndefined o) = true <-> offending o.
Proof.
  unfold offending. split.
  - destruct o as [v|]; [|auto]. destruct v; cbn; try discriminate;
      try (intros _; right; left; eexists; split; [reflexivity|congruence]).
    destruct n; cbn; try discriminate. auto.
  - intros [->|[(v & -> & Hv)| ->]]; try reflexivity.
    destruct v; try reflexivity. destruct (Hv n); reflexivity.
Qed.

Lemma offending_not_well_formed (o : option value) :
  offending o <-> ~ well_formed_number o.
Proof.
  rewrite <- rejected_as_number_true, <- rejected_as_number_false.
  destruct (rejected_as_number _); split; congruence.
Qed.

Lemma check_numeric_cons (props : gmap string value) (field : string) (rest : list string) :
  check_numeric (VObj props) (field :: rest) =
  if rejected_as_number (default VUndefined (props !! field))
  then Normal (Some ("Invalid " +:+ field))
  else check_numeric (VObj props) rest.
Proof. reflexivity. Qed.

(** The loop returns at the first field it rejects. *)
Lemma check_numeric_first (props : gmap string value) (pre post : list string) (f : string) :
  Forall (fun g => well_formed_number (props !! g)) pre ->
  offending (props !! f) ->
  check_numeric (VObj props) (pre ++ f :: post) = Normal (Some ("Invalid " +:+ f)).
Proof.
  intros Hpre Hf. induction Hpre as [|g pre Hg _ IH].
  - rewrite app_nil_l, check_numeric_cons.
    apply rejected_as_number_true in Hf. rewrite Hf. reflexivity.
  - rewrite <- app_comm_cons, check_numeric_cons.
    apply rejected_as_number_false in Hg. rewrite Hg. exact IH.
Qed.

(** The loop runs to its end exactly when every field is a number other
    than NaN. *)
Lemma check_numeric_end (props : gmap string value) (fields : list string) :
  check_numeric (VObj props) fields = Normal None <->
  Forall (fun g => well_formed_number (props !! g)) fields.
Proof.
  induction fields as [|g fields IH].
  - split; [constructor | reflexivity].
  - rewrite check_numeric_cons, Forall_cons, <- IH, <- rejected_as_number_false.
    destruct (rejected_as_number _); split; try tauto; try discriminate.
    intros [? _]; discriminate.
Qed.

(** Whatever the loop returns is an [Invalid <field>] message. *)
Lemma check_numeric_message (props : gmap string value) (fields : list string) (msg : string) :
  check_numeric (VObj props) fields = Normal (Some msg) ->
  In msg (map (fun field => "Invalid " +:+ field) fields).
Proof.
  induction fields as [|g fields IH]; [discriminate|].
  rewrite check_numeric_cons. destruct (rejected_as_number _).
  - intros [= <-]. left. reflexivity.
  - intros H. right. auto.
Qed.

Lemma check_numeric_total (props : gmap string value) (fields : list string) :
  exists r, check_numeric (VObj props) fields = Normal r.
Proof.
  induction fields as [|g fields IH]; [eexists; reflexivity|].
  rewrite check_numeric_cons. destruct (rejected_as_number _); eauto.
Qed.

(** ** Validation: the three stages *)

#[local] Arguments check_numeric : simpl never.
#[local] Arguments Num.lt : simpl never.
#[local] Arguments Num.gt : simpl never.
#[local] Arguments Num.le : simpl never.
#[local] Arguments Num.ge : simpl never.
#[local] Arguments Num.zero : simpl never.
#[local] Arguments Num.minus_fifty : simpl never.
#[local] Arguments Num.one_hundred_fifty : simpl never.

Lemma asset_id_test (o : option value) :
  asset_id_accepted o <->
  truthy (default VUndefined o) = true /\
  String.eqb (typeof (default VUndefined o)) "string" = true.
Proof.
  unfold asset_id_accepted. split.
  - intros (str & -> & Hstr). cbn. split; [|reflexivity].
    apply negb_true_iff, String.eqb_neq, Hstr.
  - destruct o as [[| | | |str| |]|]; cbn; intros [Htruthy Htype]; try discriminate.
    eexists; split; [reflexivity|].
    apply String.eqb_neq, negb_true_iff, Htruthy.
Qed.

(** A payload that fails the first test. *)
Lemma validate_asset_id_rejected (data : value) :
  data <> VNull -> data <> VUndefined ->
  ~ asset_id_accepted (property data "asset_id") ->
  validateSensorData data = Normal (Some "Invalid asset_id").
Proof.
  intros Hn Hu Ha. rewrite asset_id_test in Ha.
  unfold validateSensorData. rewrite !(get_defined data) by assumption. cbn.
  destruct (truthy _); cbn; [|reflexivity].
  destruct (String.eqb (typeof _) "string"); cbn; [|reflexivity].
  exfalso; apply Ha; split; reflexivity.
Qed.

(** A payload that passes the first test is an object, and validation goes
    on with the loop and then the range checks. *)
Lemma asset_id_accepted_object (data : value) :
  asset_id_accepted (property data "asset_id") -> exists props, data = VObj props.
Proof. destruct data; cbn; intros (str & H & _); try discriminate. eauto. Qed.

Lemma validate_loop_returns (props : gmap string value) (msg : string) :
  asset_id_accepted (props !! "asset_id") ->
  check_numeric (VObj props) numericFields = Normal (Some msg) ->
  validateSensorData (VObj props) = Normal (Some msg).
Proof.
  intros Ha Hloop. apply asset_id_test in Ha as [Ht Hs].
  unfold validateSensorData. rewrite !get_object. cbn.
  rewrite Ht, Hs. cbn.
  rewrite Hloop. reflexivity.
Qed.

Lemma validate_ranges (props : gmap string value) (t p v e : Num.number) :
  asset_id_accepted (props !! "asset_id") ->
  props !! "temperature" = Some (VNum t) -> Num.is_nan t = false ->
  props !! "pressure" = Some (VNum p) -> Num.is_nan p = false ->
  props !! "vibration" = Some (VNum v) -> Num.is_nan v = false ->
  props !! "energy_consumption" = Some (VNum e) -> Num.is_nan e = false ->
  validateSensorData (VObj props) =
  Normal (if Num.lt t Num.minus_fifty || Num.gt t Num.one_hundred_fifty
          then Some "Temperature must be between -50 and 150"
          else if Num.lt p Num.zero then Some "Pressure must be non-negative"
          else if Num.lt v Num.zero then Some "Vibration must be non-negative"
          else if Num.lt e Num.zero then Some "Energy consumption must be non-negative"
          else None).
Proof.
  intros Ha Ht Hnt Hp Hnp Hv Hnv He Hne.
  assert (Hloop : check_numeric (VObj props) numericFields = Normal None).
  { apply check_numeric_end. unfold numericFields, well_formed_number.
    repeat constructor; eauto. }
  apply asset_id_test in Ha as [Hta Hsa].
  unfold validateSensorData. rewrite !get_object. cbn.
  rewrite Hta, Hsa. cbn.
  rewrite Hloop. cbn.
  rewrite Ht, Hp, Hv, He. cbn.
  repeat match goal with
         | |- context [if ?b then _ else _] => destruct b; try reflexivity
         end.
Qed.

(** Past the first test, validation returns: an [Invalid <field>] message of
    the loop, a range message, or [null]. *)
Lemma validate_accepted_outcome (props : gmap string value) :
  asset_id_accepted (props !! "asset_id") ->
  exists r, validateSensorData (VObj props) = Normal r /\
    (r = None \/ exists msg, r = Some msg /\
       In msg (map (fun field => "Invalid " +:+ field) numericFields ++ range_messages)%list).
Proof.
  intros Ha. destruct (check_numeric_total props numericFields) as [[msg|] Hloop].
  - exists (Some msg). split; [apply validate_loop_returns; assumption|].
    right. exists msg. split; [reflexivity|].
    apply in_or_app. left. apply (check_numeric_message props). exact Hloop.
  - apply check_numeric_end in Hloop. unfold numericFields in Hloop.
    repeat match goal with
           | H : Forall _ (_ :: _) |- _ => apply Forall_cons in H as [[? [? ?]] H]
           end.
    rewrite (validate_ranges props _ _ _ _ Ha) by eassumption.
    eexists; split; [reflexivity|].
    repeat match goal with
           | |- context [if ?b then _ else _] => destruct b
           end; [right; eexists; split; [reflexivity|]; cbn; tauto .. | left; reflexivity].
Qed.

(** The messages are nine different strings. *)
Lemma error_messages_NoDup : NoDup error_messages.
Proof.
  apply (bool_decide_unpack _). vm_compute. exact I.
Qed.

Lemma asset_id_accepted_or_not (o : option value) :
  asset_id_accepted o \/ ~ asset_id_accepted o.
Proof.
  rewrite asset_id_test.
  destruct (truthy _), (String.eqb _ "string"); intuition discriminate.
Qed.

(** Every message is returned for some payload. *)
Lemma error_messages_attained (msg : string) :
  In msg error_messages -> exists data, validateSensorData data = Normal (Some msg).
Proof.
  pose (one := VNum (Num.of_Z 1)).
  pose (low := VNum (Num.of_Z (-1))).
  cbn. intros [<-|[<-|[<-|[<-|[<-|[<-|[<-|[<-|[<-|[]]]]]]]]]].
  - exists (VObj ∅). reflexivity.
  - exists (reading (VStr "A1") VUndefined one one one). reflexivity.
  - exists (reading (VStr "A1") one VUndefined one one). reflexivity.
  - exists (reading (VStr "A1") one one VUndefined one). reflexivity.
  - exists (reading (VStr "A1") one one one VUndefined). reflexivity.
  - exists (reading (VStr "A1") (VNum (Num.of_Z 200)) one one one). reflexivity.
  - exists (reading (VStr "A1") one low one one). reflexivity.
  - exists (reading (VStr "A1") one one low one). reflexivity.
  - exists (reading (VStr "A1") one one one low). reflexivity.
Qed.

(** No list of seven strings holds every message. *)
Lemma error_messages_more_than_seven (seven : list string) :
  length seven = 7%nat ->
  ~ (forall data msg, validateSensorData data = Normal (Some msg) -> In msg seven).
Proof.
  intros Hlen Hall.
  assert (Hincl : incl error_messages seven).
  { intros msg Hin. destruct (error_messages_attained msg Hin) as [data Hdata].
    exact (Hall data msg Hdata). }
  pose proof (List.NoDup_incl_length
                (proj1 (NoDup_ListNoDup error_messages) error_messages_NoDup) Hincl) as Hle.
  rewrite Hlen in Hle. cbn in Hle. lia.
Qed.

(** ** The handler: its traces *)

Lemma store_trace (w : world) (req : request) (tr : list action) :
  body req <> VNull -> body req <> VUndefined ->
  snd (try_catch (store req) internal_error w tr) =
  (tr ++ clock_reads w req ++
     Insert "sensor_readings" (row_of w req) (insert w "sensor_readings" (row_of w req))
     :: after_insert (insert w "sensor_readings" (row_of w req)))%list.
Proof.
  intros Hn Hu. unfold try_catch, store, lift.
  rewrite !(get_defined (body req)) by assumption.
  unfold row_of, timestamp_of, clock_reads, after_insert.
  destruct (query_timestamp req) as [t|]; [destruct (String.eqb t "")|]; run_handlerM;
    match goal with
    | |- context [insert w ?table ?r] => destruct (insert w table r) as [[ie]|ex]
    end; cbn; try destruct (truthy ie); cbn;
    rewrite <- ?app_assoc; reflexivity.
Qed.

Lemma validate_normal_defined (data : value) (r : option string) :
  validateSensorData data = Normal r -> data <> VNull /\ data <> VUndefined.
Proof. destruct data; try discriminate; intros _; split; discriminate. Qed.

Lemma validate_message (data : value) (msg : string) :
  validateSensorData data = Normal (Some msg) -> In msg error_messages.
Proof.
  intros Hres. destruct (validate_normal_defined _ _ Hres) as [Hn Hu].
  destruct (asset_id_accepted_or_not (property data "asset_id")) as [Ha|Ha].
  - destruct (asset_id_accepted_object data Ha) as [props ->].
    destruct (validate_accepted_outcome props Ha) as (r & Hr & Hcases).
    rewrite Hr in Hres. injection Hres as ->.
    destruct Hcases as [|(msg' & [= <-] & Hin)]; [discriminate|].
    right. exact Hin.
  - rewrite (validate_asset_id_rejected data Hn Hu Ha) in Hres.
    injection Hres as <-. left. reflexivity.
Qed.

Lemma error_message_nonempty (msg : string) :
  In msg error_messages -> String.eqb msg "" = false.
Proof. cbn. intuition (subst; reflexivity). Qed.

Lemma validate_then_store_trace (w : world) (req : request) (tr : list action) :
  snd (try_catch (validate_then_store req) internal_error w tr) =
  (tr ++ after_token w req)%list.
Proof.
  unfold after_token.
  destruct (validateSensorData (body req)) as [[msg|]|e] eqn:Hres.
  - pose proof (error_message_nonempty msg (validate_message _ _ Hres)) as Hmsg.
    unfold validate_then_store. run_handlerM. rewrite Hres, Hmsg. reflexivity.
  - destruct (validate_normal_defined _ _ Hres) as [Hn Hu].
    rewrite <- (store_trace w req tr Hn Hu).
    unfold validate_then_store. run_handlerM. rewrite Hres. reflexivity.
  - unfold validate_then_store. run_handlerM. rewrite Hres. cbn.
    rewrite <- app_assoc. reflexivity.
Qed.

Lemma try_catch_bind_normal {A B : Type} (m : handlerM A) (k : A -> handlerM B)
    (h : exn -> handlerM B) (w : world) (tr tr' : list action) (a : A) :
  m w tr = (Normal a, tr') ->
  try_catch (m ≫= k) h w tr = try_catch (k a) h w tr'.
Proof. intros Hm. unfold try_catch, mbind, handlerM_bind. rewrite Hm. reflexivity. Qed.

Lemma try_catch_bind_throw {A B : Type} (m : handlerM A) (k : A -> handlerM B)
    (h : exn -> handlerM B) (w : world) (tr tr' : list action) (e : exn) :
  m w tr = (Throw e, tr') ->
  try_catch (m ≫= k) h w tr = h e w tr'.
Proof. intros Hm. unfold try_catch, mbind, handlerM_bind. rewrite Hm. reflexivity. Qed.

Lemma await_getUser_answer (w : world) (token : option string) (tr : list action) :
  await_getUser token w tr = (getUser w token, (tr ++ [GetUser token (getUser w token)])%list).
Proof. reflexivity. Qed.

Lemma run_path (w : world) (req : request) : path w req (run w req).
Proof.
  unfold run, handler.
  destruct (headers_authorization req) as [h|] eqn:Hh.
  2:{ apply path_no_bearer. intros h. rewrite Hh. discriminate. }
  destruct (startsWith h "Bearer ") eqn:Hb.
  2:{ apply path_no_bearer. intros h'. rewrite Hh. intros [= <-]. exact Hb. }
  cbn [negb].
  pose proof (await_getUser_answer w (token_of h) []) as Hcall. cbn [app] in Hcall.
  destruct (getUser w (token_of h)) as [answer|e] eqn:Hg.
  2:{ rewrite (try_catch_bind_throw _ _ _ _ _ _ _ Hcall).
      eapply path_provider_throws; eassumption. }
  rewrite (try_catch_bind_normal _ _ _ _ _ _ _ Hcall).
  destruct (truthy (authError answer)) eqn:He.
  { eapply path_token_rejected; eauto. }
  destruct (truthy (user answer)) eqn:Hu.
  2:{ eapply path_token_rejected; eauto. }
  cbn [negb orb]. rewrite validate_then_store_trace.
  eapply path_token_accepted; eassumption.
Qed.

(** Which path a request takes. *)
Lemma run_no_bearer (w : world) (req : request) :
  (forall h, headers_authorization req = Some h -> startsWith h "Bearer " = false) ->
  run w req = [Respond 401 (ErrorResponse "Missing or invalid Authorization header")].
Proof.
  intros Hno. generalize (run_path w req). generalize (run w req) as tr.
  intros tr [ _ | h e Hh Hb _ | h answer Hh Hb _ _ | h answer Hh Hb _ _ _ ];
    [reflexivity | rewrite (Hno h Hh) in Hb; discriminate ..].
Qed.

Lemma run_token_rejected (w : world) (req : request) (h : string) (answer : UserResponse) :
  headers_authorization req = Some h -> startsWith h "Bearer " = true ->
  getUser w (token_of h) = Normal answer ->
  truthy (authError answer) = true \/ truthy (user answer) = false ->
  run w req = [GetUser (token_of h) (Normal answer);
               Respond 401 (ErrorResponse "Invalid token")].
Proof.
  intros Hh Hb Hg Hrej. generalize (run_path w req). generalize (run w req) as tr.
  intros tr [ Hno | h' e Hh' _ Hg' | h' answer' Hh' _ Hg' _ | h' answer' Hh' _ Hg' He Hu ].
  - rewrite (Hno h Hh) in Hb. discriminate.
  - congruence.
  - congruence.
  - assert (h' = h) as -> by congruence.
    assert (answer' = answer) as -> by congruence.
    destruct Hrej; congruence.
Qed.

Lemma run_authenticated (w : world) (req : request) (h : string) (answer : UserResponse) :
  headers_authorization req = Some h -> startsWith h "Bearer " = true ->
  getUser w (token_of h) = Normal answer ->
  truthy (authError answer) = false -> truthy (user answer) = true ->
  run w req = GetUser (token_of h) (Normal answer) :: after_token w req.
Proof.
  intros Hh Hb Hg He Hu. generalize (run_path w req). generalize (run w req) as tr.
  intros tr [ Hno | h' e Hh' _ Hg' | h' answer' Hh' _ Hg' Hrej | h' answer' Hh' _ Hg' _ _ ].
  - rewrite (Hno h Hh) in Hb. discriminate.
  - congruence.
  - assert (h' = h) as -> by congruence.
    assert (answer' = answer) as -> by congruence.
    destruct Hrej; congruence.
  - congruence.
Qed.

Lemma clock_reads_quiet (w : world) (req : request) :
  inserts (clock_reads w req) = [] /\ responses (clock_reads w req) = [].
Proof.
  unfold clock_reads.
  destruct (query_timestamp req) as [t|]; [destruct (String.eqb t "")|]; split; reflexivity.
Qed.

Lemma after_insert_quiet (answer : completion InsertResponse) :
  inserts (after_insert answer) = [].
Proof. destruct answer as [a|e]; cbn; [destruct (truthy _)|]; reflexivity. Qed.

(** A validated request of an authenticated caller stores its row once. *)
Lemma inserts_valid (w : world) (req : request) :
  authenticated w req ->
  validateSensorData (body req) = Normal None ->
  inserts (run w req) = [("sensor_readings", row_of w req)].
Proof.
  intros (h & answer & Hh & Hb & Hg & He & Hu) Hvalid.
  rewrite (run_authenticated w req h answer Hh Hb Hg He Hu).
  unfold after_token. rewrite Hvalid. unfold inserts at 1. cbn [omap list_omap].
  rewrite omap_app. fold (inserts (clock_reads w req)).
  rewrite (proj1 (clock_reads_quiet w req)). cbn [app omap list_omap].
  fold (inserts (after_insert (insert w "sensor_readings" (row_of w req)))).
  rewrite after_insert_quiet. reflexivity.
Qed.

(** An authenticated request that fails validation is answered 400 with the
    validation message, and stores nothing. *)
Lemma run_invalid (w : world) (req : request) (msg : string) :
  authenticated w req ->
  validateSensorData (body req) = Normal (Some msg) ->
  responses (run w req) = [(400, ErrorResponse msg)] /\ inserts (run w req) = [].
Proof.
  intros (h & answer & Hh & Hb & Hg & He & Hu) Hinvalid.
  rewrite (run_authenticated w req h answer Hh Hb Hg He Hu).
  unfold after_token. rewrite Hinvalid. split; reflexivity.
Qed.

(** ** Validation: the contract *)

(** Claim C2, as amended. For a payload other than [null] and [undefined],
    validation returns ['Invalid asset_id'] if and only if the payload's
    [asset_id] is missing, is not a string, or is the empty string; so a
    present, non-empty string gets past the first test. *)
Theorem invalid_asset_id_iff (data : value) :
  data <> VNull -> data <> VUndefined ->
  validateSensorData data = Normal (Some "Invalid asset_id") <->
  (property data "asset_id" = None \/
   (exists a, property data "asset_id" = Some a /\ forall s, a <> VStr s) \/
   property data "asset_id" = Some (VStr "")).
Proof.
  intros Hn Hu. split.
  - intros Hres.
    destruct (property data "asset_id") as [a|] eqn:Hprop; [|auto].
    right. destruct a as [| | | |str| |];
      try (left; eexists; split; [reflexivity|congruence]).
    destruct (String.eqb_spec str "") as [->|Hstr]; [auto|].
    exfalso.
    assert (Ha : asset_id_accepted (property data "asset_id")).
    { rewrite Hprop. exists str. auto. }
    destruct (asset_id_accepted_object data Ha) as [props ->].
    destruct (validate_accepted_outcome props Ha) as (r & Hr & Hcases).
    rewrite Hr in Hres. injection Hres as ->.
    destruct Hcases as [|(msg & [= <-] & Hin)]; [discriminate|].
    cbn in Hin. intuition discriminate.
  - intros Hcases. apply validate_asset_id_rejected; try assumption.
    intros (str & Hprop & Hstr).
    destruct Hcases as [H|[(a & H & Ha)|H]]; rewrite H in Hprop.
    + discriminate.
    + injection Hprop as ->. exact (Ha str eq_refl).
    + injection Hprop as <-. exact (Hstr eq_refl).
Qed.

(** Claim C3, as amended. For a payload whose [asset_id] is a non-empty
    string and in which some numeric field is missing, not a number or NaN,
    validation returns ['Invalid <field>'] for the first such field in the
    order temperature, pressure, vibration, energy_consumption, and so the
    service answers an authenticated request 400 with that message and
    stores nothing; and a result that is [null] or a range message is only
    returned when all four fields are numbers other than NaN. *)
Theorem first_offending_numeric_field (props : gmap string value) (s : string) :
  props !! "asset_id" = Some (VStr s) -> s <> "" ->
  (forall (pre post : list string) (f : string),
     numericFields = (pre ++ f :: post)%list ->
     Forall (fun g => well_formed_number (props !! g)) pre ->
     offending (props !! f) ->
     validateSensorData (VObj props) = Normal (Some ("Invalid " +:+ f)) /\
     forall (w : world) (req : request),
       body req = VObj props -> authenticated w req ->
       responses (run w req) = [(400, ErrorResponse ("Invalid " +:+ f))] /\
       inserts (run w req) = []) /\
  (forall r,
     validateSensorData (VObj props) = Normal r ->
     r = None \/ (exists msg, r = Some msg /\ In msg range_messages) ->
     Forall (fun g => well_formed_number (props !! g)) numericFields).
Proof.
  intros Hs Hne.
  assert (Ha : asset_id_accepted (props !! "asset_id")) by (exists s; auto).
  split.
  - intros pre post f Hsplit Hpre Hf.
    assert (Hres : validateSensorData (VObj props) = Normal (Some ("Invalid " +:+ f))).
    { apply validate_loop_returns; [assumption|].
      rewrite Hsplit. apply check_numeric_first; assumption. }
    split; [exact Hres|].
    intros w req Hbody Hauth. apply run_invalid; [assumption|].
    rewrite Hbody. exact Hres.
  - intros r Hr Hrange.
    destruct (check_numeric_total props numericFields) as [[msg|] Hloop].
    + exfalso. rewrite (validate_loop_returns props msg Ha Hloop) in Hr.
      injection Hr as <-. apply check_numeric_message in Hloop.
      destruct Hrange as [|(msg' & [= <-] & Hin)]; [discriminate|].
      cbn in Hloop, Hin. intuition (subst; discriminate).
    + apply check_numeric_end. exact Hloop.
Qed.

(** Claim C4, as amended. For a payload whose [asset_id] is a non-empty
    string and whose four fields are numbers other than NaN, validation
    returns the message of the first violated rule in the order temperature
    in [-50, 150], pressure >= 0, vibration >= 0, energy_consumption >= 0,
    and [null] when none is violated; the readings with temperature -50 or
    150 and the other three fields 0 are accepted. *)
Theorem range_checks_first_violation
    (props : gmap string value) (s : string) (t p v e : Num.number) :
  props !! "asset_id" = Some (VStr s) -> s <> "" ->
  props !! "temperature" = Some (VNum t) -> Num.is_nan t = false ->
  props !! "pressure" = Some (VNum p) -> Num.is_nan p = false ->
  props !! "vibration" = Some (VNum v) -> Num.is_nan v = false ->
  props !! "energy_consumption" = Some (VNum e) -> Num.is_nan e = false ->
  validateSensorData (VObj props) = Normal (first_violation t p v e) /\
  validateSensorData
    (reading (VStr s) (VNum Num.minus_fifty) (VNum Num.zero) (VNum Num.zero) (VNum Num.zero))
    = Normal None /\
  validateSensorData
    (reading (VStr s) (VNum Num.one_hundred_fifty) (VNum Num.zero) (VNum Num.zero) (VNum Num.zero))
    = Normal None.
Proof.
  intros Hs Hne Ht Hnt Hp Hnp Hv Hnv He Hnee.
  assert (Ha : asset_id_accepted (props !! "asset_id")) by (exists s; auto).
  split; [|split].
  - rewrite (validate_ranges props t p v e) by assumption.
    unfold first_violation, temperature_in_range, non_negative, Num.ge.
    rewrite (lt_false_iff_le t Num.minus_fifty), (gt_false_iff_le t Num.one_hundred_fifty),
      (lt_false_iff_le p Num.zero), (lt_false_iff_le v Num.zero),
      (lt_false_iff_le e Num.zero) by (assumption || reflexivity).
    rewrite negb_andb. reflexivity.
  - unfold reading, reading_props.
    rewrite (validate_ranges _ Num.minus_fifty Num.zero Num.zero Num.zero);
      [reflexivity | exists s; split; [reflexivity|assumption] | reflexivity ..].
  - unfold reading, reading_props.
    rewrite (validate_ranges _ Num.one_hundred_fifty Num.zero Num.zero Num.zero);
      [reflexivity | exists s; split; [reflexivity|assumption] | reflexivity ..].
Qed.

(** Claim C10, as amended. On every input other than [null] and
    [undefined], [validateSensorData] returns without throwing, and what it
    returns is [null] or one of nine fixed, pairwise different messages,
    each of which is returned for some input; equal inputs give equal
    results. *)
Theorem validateSensorData_outcomes (data : value) :
  data <> VNull -> data <> VUndefined ->
  (exists r, validateSensorData data = Normal r /\
     (r = None \/ exists msg, r = Some msg /\ In msg error_messages)) /\
  NoDup error_messages /\ length error_messages = 9%nat /\
  (forall msg, In msg error_messages ->
     exists input, validateSensorData input = Normal (Some msg)) /\
  (forall data', data = data' -> validateSensorData data = validateSensorData data').
Proof.
  intros Hn Hu. split; [|split; [|split; [|split]]].
  - destruct (asset_id_accepted_or_not (property data "asset_id")) as [Ha|Ha].
    + destruct (asset_id_accepted_object data Ha) as [props ->].
      destruct (validate_accepted_outcome props Ha) as (r & Hr & Hcases).
      exists r. split; [exact Hr|].
      destruct Hcases as [->|(msg & -> & Hin)]; [left; reflexivity|].
      right. exists msg. split; [reflexivity|].
      unfold error_messages, invalid_messages. right. exact Hin.
    + exists (Some "Invalid asset_id").
      split; [apply validate_asset_id_rejected; assumption|].
      right. eexists. split; [reflexivity|]. left. reflexivity.
  - exact error_messages_NoDup.
  - reflexivity.
  - exact error_messages_attained.
  - intros data' <-. reflexivity.
Qed.

(** ** The handler: the contract *)

(** Claim C1, as amended. A request with valid authentication and a payload
    that passes validation issues exactly one insert, to [sensor_readings];
    the row's [asset_id], [temperature], [pressure], [vibration] and
    [energy_consumption] are the fields of the request body, and its
    timestamp is the [timestamp] query parameter when that is supplied and
    not empty, the clock's ISO string otherwise. *)
Theorem valid_request_single_insert (w : world) (req : request) :
  authenticated w req ->
  validateSensorData (body req) = Normal None ->
  exists r,
    inserts (run w req) = [("sensor_readings", r)] /\
    get (body req) "asset_id" = Normal (row_asset_id r) /\
    get (body req) "temperature" = Normal (row_temperature r) /\
    get (body req) "pressure" = Normal (row_pressure r) /\
    get (body req) "vibration" = Normal (row_vibration r) /\
    get (body req) "energy_consumption" = Normal (row_energy_consumption r) /\
    row_timestamp r =
      match query_timestamp req with
      | Some t => if String.eqb t "" then toISOString w else t
      | None => toISOString w
      end.
Proof.
  intros Hauth Hvalid. exists (row_of w req).
  destruct (validate_normal_defined _ _ Hvalid) as [Hn Hu].
  split; [apply inserts_valid; assumption|].
  rewrite !(get_defined (body req)) by assumption.
  repeat split; reflexivity.
Qed.

(** Claim C5. A request without an [Authorization] header, or with one that
    does not start with ['Bearer '], is answered 401 and the authentication
    provider is never called. *)
Theorem no_bearer_header_unauthorized (w : world) (req : request) :
  headers_authorization req = None \/
  (exists h, headers_authorization req = Some h /\ startsWith h "Bearer " = false) ->
  responses (run w req) =
    [(401, ErrorResponse "Missing or invalid Authorization header")] /\
  getUser_calls (run w req) = [].
Proof.
  intros Hheader. rewrite run_no_bearer; [split; reflexivity|].
  intros h Hh. destruct Hheader as [Hnone|(h' & Hh' & Hb)]; congruence.
Qed.

(** Claim C6. A request with a bearer header whose token the provider
    rejects (it answers with an error, or with no identity) is answered 401
    and no insert is issued. *)
Theorem rejected_token_unauthorized
    (w : world) (req : request) (h : string) (answer : UserResponse) :
  headers_authorization req = Some h -> startsWith h "Bearer " = true ->
  getUser w (token_of h) = Normal answer ->
  truthy (authError answer) = true \/ truthy (user answer) = false ->
  responses (run w req) = [(401, ErrorResponse "Invalid token")] /\
  inserts (run w req) = [].
Proof.
  intros Hh Hb Hg Hrej.
  rewrite (run_token_rejected w req h answer Hh Hb Hg Hrej). split; reflexivity.
Qed.

(** Claim C7. Whenever the insert call of a request answers with an error,
    the response is 500 with the fixed message ['Failed to store sensor
    reading'], whatever the error is: the error goes to the console and
    nowhere into the response body. *)
Theorem insert_error_hidden
    (w : world) (req : request) (table : string) (r : row) (e : value) :
  In (Insert table r (Normal {| insertError := e |})) (run w req) ->
  truthy e = true ->
  responses (run w req) = [(500, ErrorResponse "Failed to store sensor reading")] /\
  In (ConsoleError "Error inserting sensor data:" (LogValue e)) (run w req).
Proof.
  intros Hin He. revert Hin. generalize (run_path w req). generalize (run w req) as tr.
  intros tr [ _ | h ex _ _ _ | h answer _ _ _ _ | h answer _ _ _ _ _ ];
    try (cbn; intuition discriminate).
  unfold after_token.
  destruct (validateSensorData (body req)) as [[msg|]|ex];
    try (cbn; intuition discriminate).
  intros [Hin|Hin]; [discriminate|]. apply in_app_or in Hin as [Hin|Hin].
  { exfalso. revert Hin. unfold clock_reads.
    destruct (query_timestamp req) as [ts|]; [destruct (String.eqb ts "")|];
      cbn; intuition discriminate. }
  assert (Hans : insert w "sensor_readings" (row_of w req) = Normal {| insertError := e |}).
  { destruct Hin as [Hin|Hin]; [congruence|]. exfalso. revert Hin.
    destruct (insert w "sensor_readings" (row_of w req)) as [a|ex]; cbn;
      [destruct (truthy (insertError a)); cbn|]; intuition discriminate. }
  rewrite Hans. cbn [after_insert insertError]. rewrite He.
  unfold responses. cbn [omap list_omap]. rewrite omap_app.
  fold (responses (clock_reads w req)). rewrite (proj2 (clock_reads_quiet w req)).
  split; [reflexivity|].
  right. apply in_or_app. right. right. left. reflexivity.
Qed.

(** Claim C8. Two requests that differ in the path parameter [id] only are
    handled alike: the same calls with the same answers, and so the same
    response and the same insert or absence of one. *)
Theorem path_parameter_ignored (w : world) (req : request) (id id' : option string) :
  handler (with_params_id id req) w [] = handler (with_params_id id' req) w [] /\
  responses (run w (with_params_id id req)) = responses (run w (with_params_id id' req)) /\
  inserts (run w (with_params_id id req)) = inserts (run w (with_params_id id' req)).
Proof.
  assert (H : handler (with_params_id id req) = handler (with_params_id id' req))
    by reflexivity.
  unfold run. rewrite H. repeat split; reflexivity.
Qed.

(** Claim C9. A payload whose [asset_id] is a non-empty string, whose four
    fields are numbers, whose temperature is in [-50, 150] and in which
    pressure, vibration or energy consumption is positive infinity (the
    others finite and non-negative) passes validation, and the row stored
    for an authenticated request carries the infinite value. *)
Theorem infinite_reading_stored
    (w : world) (req : request) (props : gmap string value)
    (s : string) (t p v e : Num.number) :
  body req = VObj props ->
  props !! "asset_id" = Some (VStr s) -> s <> "" ->
  props !! "temperature" = Some (VNum t) ->
  props !! "pressure" = Some (VNum p) ->
  props !! "vibration" = Some (VNum v) ->
  props !! "energy_consumption" = Some (VNum e) ->
  temperature_in_range t = true ->
  p = Num.infinity \/ (Num.is_finite p = true /\ non_negative p = true) ->
  v = Num.infinity \/ (Num.is_finite v = true /\ non_negative v = true) ->
  e = Num.infinity \/ (Num.is_finite e = true /\ non_negative e = true) ->
  p = Num.infinity \/ v = Num.infinity \/ e = Num.infinity ->
  validateSensorData (body req) = Normal None /\
  (authenticated w req ->
   inserts (run w req) =
     [("sensor_readings",
       {| row_asset_id := VStr s;
          row_temperature := VNum t;
          row_pressure := VNum p;
          row_vibration := VNum v;
          row_energy_consumption := VNum e;
          row_timestamp := timestamp_of w req |})]).
Proof.
  intros Hbody Hs Hne Ht Hp Hv He Hrange Hpc Hvc Hec _.
  assert (Hnn : forall x, x = Num.infinity \/ (Num.is_finite x = true /\ non_negative x = true) ->
                  Num.is_nan x = false /\ Num.lt x Num.zero = false).
  { intros x [->|[Hfin Hpos]]; [split; reflexivity|].
    assert (Hnan : Num.is_nan x = false) by (destruct x; try discriminate; reflexivity).
    split; [exact Hnan|].
    rewrite (lt_false_iff_le x Num.zero Hnan eq_refl).
    change (Num.le Num.zero x = true) in Hpos. rewrite Hpos. reflexivity. }
  destruct (Hnn p Hpc) as [Hnp Hlp], (Hnn v Hvc) as [Hnv Hlv], (Hnn e Hec) as [Hnee Hle].
  apply andb_true_iff in Hrange as [Hlo Hhi].
  assert (Hnt : Num.is_nan t = false) by (destruct t; try discriminate; reflexivity).
  assert (Hvalid : validateSensorData (body req) = Normal None).
  { rewrite Hbody.
    rewrite (validate_ranges props t p v e) by (try assumption; exists s; auto).
    rewrite (lt_false_iff_le t Num.minus_fifty Hnt eq_refl),
      (gt_false_iff_le t Num.one_hundred_fifty Hnt eq_refl), Hlo, Hhi, Hlp, Hlv, Hle.
    reflexivity. }
  split; [exact Hvalid|].
  intros Hauth. rewrite (inserts_valid w req Hauth Hvalid).
  unfold row_of. rewrite Hbody. cbn [property]. rewrite Hs, Ht, Hp, Hv, He. reflexivity.
Qed.

(** ** The two examples of the specification *)

Example sample_request_stored :
  run sample_world sample_request =
  [GetUser (Some "good") (getUser sample_world (Some "good"));
   Now "2025-03-25T19:20:21.000Z";
   Insert "sensor_readings" (sample_row "2025-03-25T19:20:21.000Z")
     (Normal {| insertError := VNull |});
   Respond 200 (SuccessResponse "Sensor reading stored successfully")].
Proof. reflexivity. Qed.

Example temperature_200_refused :
  responses (run sample_world
    {| params_id := None;
       headers_authorization := Some "Bearer good";
       query_timestamp := None;
       body := reading (VStr "A1") (num 200) (num 10) one_half (num 100) |}) =
  [(400, ErrorResponse "Temperature must be between -50 and 150")].
Proof. reflexivity. Qed.

Lemma stamped_request_authenticated : authenticated sample_world stamped_request.
Proof.
  exists "Bearer good", {| user := VObj {["id" := VStr "u1"]}; authError := VNull |}.
  repeat split; reflexivity.
Defined.

Lemma empty_timestamp_request_authenticated :
  authenticated sample_world empty_timestamp_request.
Proof.
  exists "Bearer good", {| user := VObj {["id" := VStr "u1"]}; authError := VNull |}.
  repeat split; reflexivity.
Defined.

Lemma bad_pressure_request_authenticated :
  authenticated sample_world bad_pressure_request.
Proof.
  exists "Bearer good", {| user := VObj {["id" := VStr "u1"]}; authError := VNull |}.
  repeat split; reflexivity.
Defined.

(** ** The claims at concrete requests *)

(** Claim C1 where it fails as first stated: with [?timestamp=] the
    parameter is supplied, as the empty string, and the stored timestamp is
    the clock's, not the parameter. *)
Lemma empty_timestamp_parameter_ignored :
  ~ (forall (w : world) (req : request),
       authenticated w req ->
       validateSensorData (body req) = Normal None ->
       exists r,
         inserts (run w req) = [("sensor_readings", r)] /\
         get (body req) "asset_id" = Normal (row_asset_id r) /\
         get (body req) "temperature" = Normal (row_temperature r) /\
         get (body req) "pressure" = Normal (row_pressure r) /\
         get (body req) "vibration" = Normal (row_vibration r) /\
         get (body req) "energy_consumption" = Normal (row_energy_consumption r) /\
         row_timestamp r =
           match query_timestamp req with
           | Some t => t
           | None => toISOString w
           end).
Proof.
  intros Hclaim.
  destruct (Hclaim sample_world empty_timestamp_request
              empty_timestamp_request_authenticated eq_refl)
    as (r & Hins & _ & _ & _ & _ & _ & Hts).
  assert (Hrun : inserts (run sample_world empty_timestamp_request) =
                 [("sensor_readings", sample_row "2025-03-25T19:20:21.000Z")])
    by reflexivity.
  rewrite Hrun in Hins. injection Hins as <-. discriminate Hts.
Qed.

Lemma valid_request_single_insert_witness :
  authenticated sample_world stamped_request /\
  validateSensorData (body stamped_request) = Normal None /\
  exists r,
    inserts (run sample_world stamped_request) = [("sensor_readings", r)] /\
    get (body stamped_request) "asset_id" = Normal (row_asset_id r) /\
    get (body stamped_request) "temperature" = Normal (row_temperature r) /\
    get (body stamped_request) "pressure" = Normal (row_pressure r) /\
    get (body stamped_request) "vibration" = Normal (row_vibration r) /\
    get (body stamped_request) "energy_consumption" = Normal (row_energy_consumption r) /\
    row_timestamp r = "2025-01-01T00:00:00.000Z".
Proof.
  split; [exact stamped_request_authenticated|]. split; [reflexivity|].
  exact (valid_request_single_insert sample_world stamped_request
           stamped_request_authenticated eq_refl).
Defined.

(** Claim C2 where it fails as first stated: an [asset_id] that is present
    and a string, the empty one, is answered ['Invalid asset_id']. *)
Lemma empty_asset_id_rejected :
  ~ (forall data : value,
       validateSensorData data = Normal (Some "Invalid asset_id") <->
       (property data "asset_id" = None \/
        exists a, property data "asset_id" = Some a /\ forall s, a <> VStr s)).
Proof.
  intros Hclaim.
  destruct (proj1 (Hclaim (reading (VStr "") (num 25) (num 10) one_half (num 100))) eq_refl)
    as [Hmissing|(a & Ha & Hnot)].
  - discriminate Hmissing.
  - injection Ha as <-. exact (Hnot "" eq_refl).
Qed.

Lemma invalid_asset_id_iff_witness :
  reading (VStr "") (num 25) (num 10) one_half (num 100) <> VNull /\
  reading (VStr "") (num 25) (num 10) one_half (num 100) <> VUndefined /\
  validateSensorData (reading (VStr "") (num 25) (num 10) one_half (num 100)) =
    Normal (Some "Invalid asset_id").
Proof.
  assert (Hn : reading (VStr "") (num 25) (num 10) one_half (num 100) <> VNull)
    by discriminate.
  assert (Hu : reading (VStr "") (num 25) (num 10) one_half (num 100) <> VUndefined)
    by discriminate.
  split; [exact Hn|]. split; [exact Hu|].
  apply (proj2 (invalid_asset_id_iff _ Hn Hu)). right. right. reflexivity.
Defined.

(** Claim C3 where it fails as first stated: in the empty object the first
    offending numeric field is [temperature], and the answer is
    ['Invalid asset_id']. *)
Lemma missing_asset_id_reported_first :
  ~ (forall (props : gmap string value) (pre post : list string) (f : string),
       numericFields = (pre ++ f :: post)%list ->
       Forall (fun g => well_formed_number (props !! g)) pre ->
       offending (props !! f) ->
       validateSensorData (VObj props) = Normal (Some ("Invalid " +:+ f))).
Proof.
  intros Hclaim.
  specialize (Hclaim ∅ [] ["pressure"; "vibration"; "energy_consumption"] "temperature"
                eq_refl (List.Forall_nil _) (or_introl eq_refl)).
  discriminate Hclaim.
Qed.

Lemma first_offending_numeric_field_witness :
  bad_pressure_props !! "asset_id" = Some (VStr "A1") /\
  "A1" <> "" /\
  validateSensorData (VObj bad_pressure_props) = Normal (Some "Invalid pressure") /\
  responses (run sample_world bad_pressure_request) =
    [(400, ErrorResponse "Invalid pressure")] /\
  inserts (run sample_world bad_pressure_request) = [].
Proof.
  assert (Hne : "A1" <> "") by discriminate.
  assert (Hpre : Forall (fun g => well_formed_number (bad_pressure_props !! g))
                   ["temperature"]).
  { repeat constructor. exists (Num.of_Z 25). split; reflexivity. }
  assert (Hoff : offending (bad_pressure_props !! "pressure")).
  { right. left. exists (VStr "high"). split; [reflexivity|discriminate]. }
  split; [reflexivity|]. split; [exact Hne|].
  destruct (proj1 (first_offending_numeric_field bad_pressure_props "A1" eq_refl Hne)
              ["temperature"] ["vibration"; "energy_consumption"] "pressure"
              eq_refl Hpre Hoff) as [Hres Hservice].
  split; [exact Hres|].
  exact (Hservice sample_world bad_pressure_request eq_refl
           bad_pressure_request_authenticated).
Defined.

(** Claim C4 where it fails as first stated: four numeric fields with the
    temperature at 200 and no [asset_id] are answered ['Invalid asset_id'],
    not the temperature message. *)
Lemma missing_asset_id_before_ranges :
  ~ (forall (props : gmap string value) (t p v e : Num.number),
       props !! "temperature" = Some (VNum t) -> Num.is_nan t = false ->
       props !! "pressure" = Some (VNum p) -> Num.is_nan p = false ->
       props !! "vibration" = Some (VNum v) -> Num.is_nan v = false ->
       props !! "energy_consumption" = Some (VNum e) -> Num.is_nan e = false ->
       validateSensorData (VObj props) = Normal (first_violation t p v e)).
Proof.
  intros Hclaim.
  specialize (Hclaim
    (<["temperature" := num 200]> (<["pressure" := num 0]>
       (<["vibration" := num 0]> (<["energy_consumption" := num 0]> ∅))))
    (Num.of_Z 200) Num.zero Num.zero Num.zero
    eq_refl eq_refl eq_refl eq_refl eq_refl eq_refl eq_refl eq_refl).
  discriminate Hclaim.
Qed.

Lemma range_checks_first_violation_witness :
  validateSensorData
    (reading (VStr "A1") (num 25) (num (-3)) (num (-1)) (num 100)) =
    Normal (Some "Pressure must be non-negative") /\
  validateSensorData
    (reading (VStr "A1") (VNum Num.minus_fifty) (VNum Num.zero) (VNum Num.zero) (VNum Num.zero))
    = Normal None /\
  validateSensorData
    (reading (VStr "A1") (VNum Num.one_hundred_fifty) (VNum Num.zero) (VNum Num.zero)
       (VNum Num.zero))
    = Normal None.
Proof.
  assert (Hne : "A1" <> "") by discriminate.
  exact (range_checks_first_violation
           (reading_props (VStr "A1") (num 25) (num (-3)) (num (-1)) (num 100))
           "A1" (Num.of_Z 25) (Num.of_Z (-3)) (Num.of_Z (-1)) (Num.of_Z 100)
           eq_refl Hne eq_refl eq_refl eq_refl eq_refl eq_refl eq_refl eq_refl eq_refl).
Defined.

Lemma no_bearer_header_unauthorized_witness :
  startsWith "Basic dXNlcjpwYXNz" "Bearer " = false /\
  responses (run sample_world basic_scheme_request) =
    [(401, ErrorResponse "Missing or invalid Authorization header")] /\
  getUser_calls (run sample_world basic_scheme_request) = [].
Proof.
  split; [reflexivity|].
  apply (no_bearer_header_unauthorized sample_world basic_scheme_request).
  right. exists "Basic dXNlcjpwYXNz". split; reflexivity.
Defined.

Lemma rejected_token_unauthorized_witness :
  getUser sample_world (token_of "Bearer expired") =
    Normal {| user := VNull;
              authError := VObj {["message" := VStr "invalid JWT"]} |} /\
  responses (run sample_world bad_token_request) = [(401, ErrorResponse "Invalid token")] /\
  inserts (run sample_world bad_token_request) = [].
Proof.
  split; [reflexivity|].
  apply (rejected_token_unauthorized sample_world bad_token_request "Bearer expired"
           {| user := VNull; authError := VObj {["message" := VStr "invalid JWT"]} |});
    [reflexivity | reflexivity | reflexivity | left; reflexivity].
Defined.

Lemma insert_error_hidden_witness :
  truthy refusing_store_error = true /\
  responses (run refusing_world sample_request) =
    [(500, ErrorResponse "Failed to store sensor reading")] /\
  In (ConsoleError "Error inserting sensor data:" (LogValue refusing_store_error))
     (run refusing_world sample_request).
Proof.
  split; [reflexivity|].
  apply (insert_error_hidden refusing_world sample_request "sensor_readings"
           (sample_row "2025-03-25T19:20:21.000Z") refusing_store_error);
    [|reflexivity].
  right. right. left. reflexivity.
Defined.

Lemma infinite_pressure_request_authenticated :
  authenticated sample_world infinite_pressure_request.
Proof.
  exists "Bearer good", {| user := VObj {["id" := VStr "u1"]}; authError := VNull |}.
  repeat split; reflexivity.
Defined.

Lemma infinite_reading_stored_witness :
  validateSensorData (VObj infinite_pressure_props) = Normal None /\
  inserts (run sample_world infinite_pressure_request) =
    [("sensor_readings",
      {| row_asset_id := VStr "A1";
         row_temperature := num 25;
         row_pressure := VNum Num.infinity;
         row_vibration := one_half;
         row_energy_consumption := num 100;
         row_timestamp := "2025-03-25T19:20:21.000Z" |})].
Proof.
  assert (Hne : "A1" <> "") by discriminate.
  destruct (infinite_reading_stored sample_world infinite_pressure_request
              infinite_pressure_props "A1"
              (Num.of_Z 25) Num.infinity
              (binary_normalize Num.prec Num.emax 1 (-1) false) (Num.of_Z 100)
              eq_refl eq_refl Hne eq_refl eq_refl eq_refl eq_refl eq_refl
              (or_introl eq_refl)
              (or_intror (conj eq_refl eq_refl))
              (or_intror (conj eq_refl eq_refl))
              (or_introl eq_refl)) as [Hvalid Hstored].
  split; [exact Hvalid|].
  exact (Hstored infinite_pressure_request_authenticated).
Defined.

(** Claim C10 where it fails as first stated: on [null] the first property
    read throws; and the messages are more than seven. *)
Lemma validateSensorData_null_throws :
  ~ (forall data : value,
       exists r, validateSensorData data = Normal r /\
         (r = None \/ exists msg, r = Some msg /\ In msg error_messages)) /\
  ~ (exists seven : list string,
       length seven = 7%nat /\
       forall data msg, validateSensorData data = Normal (Some msg) -> In msg seven).
Proof.
  split.
  - intros Hclaim. destruct (Hclaim VNull) as (r & Hr & _). discriminate Hr.
  - intros (seven & Hlen & Hall). exact (error_messages_more_than_seven seven Hlen Hall).
Qed.

Lemma validateSensorData_outcomes_witness :
  VArr [num 1; num 2] <> VNull /\ VArr [num 1; num 2] <> VUndefined /\
  exists r, validateSensorData (VArr [num 1; num 2]) = Normal r /\
    (r = None \/ exists msg, r = Some msg /\ In msg error_messages).
Proof.
  assert (Hn : VArr [num 1; num 2] <> VNull) by discriminate.
  assert (Hu : VArr [num 1; num 2] <> VUndefined) by discriminate.
  split; [exact Hn|]. split; [exact Hu|].
  exact (proj1 (validateSensorData_outcomes (VArr [num 1; num 2]) Hn Hu)).
Defined.


(** ** The handler as a whole: responses, inserts, exceptions *)

Lemma internal_error_returns (e : exn) (w : world) (tr : list action) :
  internal_error e w tr =
  (Normal tt, (tr ++ [ConsoleError "Error processing request:" (LogExn e);
                      Respond 500 (ErrorResponse "Internal server error")])%list).
Proof. unfold internal_error. run_handlerM. rewrite <- app_assoc. reflexivity. Qed.

(** Nothing escapes the [try]/[catch]. *)
Lemma handler_returns (w : world) (req : request) (tr : list action) :
  fst (handler req w tr) = Normal tt.
Proof.
  unfold handler, try_catch.
  match goal with |- context [let (_, _) := ?m in _] => destruct m as [[[]|e] tr'] end.
  - reflexivity.
  - rewrite internal_error_returns. reflexivity.
Qed.

(** An insert in the trace tells the whole path. *)
Lemma insert_in_run (w : world) (req : request) (table : string) (r : row)
    (answer : completion InsertResponse) :
  In (Insert table r answer) (run w req) ->
  authenticated w req /\ validateSensorData (body req) = Normal None /\
  table = "sensor_readings" /\ r = row_of w req /\
  answer = insert w "sensor_readings" (row_of w req) /\
  run w req =
    (GetUser (token_of (default "" (headers_authorization req)))
       (getUser w (token_of (default "" (headers_authorization req))))
     :: clock_reads w req ++
     Insert "sensor_readings" (row_of w req) (insert w "sensor_readings" (row_of w req))
     :: after_insert (insert w "sensor_readings" (row_of w req)))%list.
Proof.
  generalize (run_path w req). generalize (run w req) as tr.
  intros tr [ _ | h ex _ _ _ | h ans _ _ _ _ | h ans Hh Hb Hg He Hu ];
    try (cbn; intuition discriminate).
  unfold after_token.
  destruct (validateSensorData (body req)) as [[msg|]|ex] eqn:Hvalid;
    try (cbn; intuition discriminate).
  intros [Hin|Hin]; [discriminate|].
  assert (Hthis : Insert table r answer =
                  Insert "sensor_readings" (row_of w req)
                    (insert w "sensor_readings" (row_of w req))).
  { apply in_app_or in Hin as [Hin|[Hin|Hin]].
    - exfalso. revert Hin. unfold clock_reads.
      destruct (query_timestamp req) as [ts|]; [destruct (String.eqb ts "")|];
        cbn; intuition discriminate.
    - symmetry. exact Hin.
    - exfalso. revert Hin.
      destruct (insert w "sensor_readings" (row_of w req)) as [a|ex]; cbn;
        [destruct (truthy (insertError a)); cbn|]; intuition discriminate. }
  injection Hthis as -> -> ->.
  split; [exists h, ans; auto|]. repeat split; try reflexivity.
  rewrite Hh. change (default "" (Some h)) with h. rewrite Hg. reflexivity.
Qed.

(** Validation returns [null] on valid readings only. *)
Lemma le_true_not_nan (x y : Num.number) :
  Num.le x y = true -> Num.is_nan x = false /\ Num.is_nan y = false.
Proof. destruct x, y; cbn; try discriminate; auto. Qed.

Lemma validate_null_inv (data : value) :
  validateSensorData data = Normal None ->
  exists props s t p v e,
    data = VObj props /\
    props !! "asset_id" = Some (VStr s) /\ s <> "" /\
    props !! "temperature" = Some (VNum t) /\
    props !! "pressure" = Some (VNum p) /\
    props !! "vibration" = Some (VNum v) /\
    props !! "energy_consumption" = Some (VNum e) /\
    temperature_in_range t = true /\
    non_negative p = true /\ non_negative v = true /\ non_negative e = true.
Proof.
  intros Hres. destruct (validate_normal_defined _ _ Hres) as [Hn Hu].
  destruct (asset_id_accepted_or_not (property data "asset_id")) as [Ha|Ha].
  2:{ rewrite (validate_asset_id_rejected data Hn Hu Ha) in Hres. discriminate. }
  destruct (asset_id_accepted_object data Ha) as [props ->]. cbn [property] in Ha.
  destruct (check_numeric_total props numericFields) as [[msg|] Hloop].
  { rewrite (validate_loop_returns props msg Ha Hloop) in Hres. discriminate. }
  apply check_numeric_end in Hloop. unfold numericFields in Hloop.
  apply Forall_cons in Hloop as [(t & Ht & Hnt) Hloop].
  apply Forall_cons in Hloop as [(p & Hp & Hnp) Hloop].
  apply Forall_cons in Hloop as [(v & Hv & Hnv) Hloop].
  apply Forall_cons in Hloop as [(e & He & Hne) _].
  rewrite (validate_ranges props t p v e Ha Ht Hnt Hp Hnp Hv Hnv He Hne) in Hres.
  rewrite (lt_false_iff_le t Num.minus_fifty), (gt_false_iff_le t Num.one_hundred_fifty),
    (lt_false_iff_le p Num.zero), (lt_false_iff_le v Num.zero),
    (lt_false_iff_le e Num.zero) in Hres by (assumption || reflexivity).
  destruct Ha as (s & Hs & Hnes).
  exists props, s, t, p, v, e.
  unfold temperature_in_range, non_negative, Num.ge.
  change (SFleb Num.zero p) with (Num.le Num.zero p).
  change (SFleb Num.zero v) with (Num.le Num.zero v).
  change (SFleb Num.zero e) with (Num.le Num.zero e).
  destruct (Num.le Num.minus_fifty t), (Num.le t Num.one_hundred_fifty),
    (Num.le Num.zero p), (Num.le Num.zero v), (Num.le Num.zero e);
    try discriminate Hres.
  repeat split; assumption || reflexivity.
Qed.

Lemma responses_after_insert (answer : completion InsertResponse) :
  exists status json,
    responses (after_insert answer) = [(status, json)] /\ In status [200; 500].
Proof.
  destruct answer as [a|e]; cbn; [destruct (truthy (insertError a)); cbn|];
    eexists _, _; (split; [reflexivity|]); cbn; auto.
Qed.

Lemma responses_after_token (w : world) (req : request) :
  exists status json,
    responses (after_token w req) = [(status, json)] /\ In status [200; 400; 500].
Proof.
  unfold after_token.
  destruct (validateSensorData (body req)) as [[msg|]|e].
  - eexists _, _. split; [reflexivity|]. cbn. auto.
  - unfold responses. rewrite omap_app. fold (responses (clock_reads w req)).
    rewrite (proj2 (clock_reads_quiet w req)). cbn [app omap list_omap].
    fold (responses (after_insert (insert w "sensor_readings" (row_of w req)))).
    destruct (responses_after_insert (insert w "sensor_readings" (row_of w req)))
      as (status & json & -> & Hin).
    exists status, json. split; [reflexivity|]. cbn in *. intuition.
  - eexists _, _. split; [reflexivity|]. cbn. auto.
Qed.

(** The handler returns normally and answers every request exactly once,
    with one of the statuses 200, 400, 401 and 500. *)
Theorem handler_answers_once (w : world) (req : request) :
  fst (handler req w []) = Normal tt /\
  exists status json,
    responses (run w req) = [(status, json)] /\ In status [200; 400; 401; 500].
Proof.
  split; [apply handler_returns|].
  generalize (run_path w req). generalize (run w req) as tr.
  intros tr [ _ | h ex _ _ _ | h ans _ _ _ _ | h ans _ _ _ _ _ ].
  - eexists _, _. split; [reflexivity|]. cbn. auto.
  - eexists _, _. split; [reflexivity|]. cbn. auto.
  - eexists _, _. split; [reflexivity|]. cbn. auto.
  - destruct (responses_after_token w req) as (status & json & Hres & Hin).
    exists status, json. split.
    + unfold responses in *. cbn [omap list_omap]. exact Hres.
    + cbn in *. intuition.
Qed.

(** An insert is only issued to [sensor_readings], for a request whose
    token the provider accepted and whose body passed validation; it is the
    only insert of the request. *)
Theorem insert_needs_token_and_valid_body
    (w : world) (req : request) (table : string) (r : row)
    (answer : completion InsertResponse) :
  In (Insert table r answer) (run w req) ->
  table = "sensor_readings" /\
  authenticated w req /\
  validateSensorData (body req) = Normal None /\
  inserts (run w req) = [(table, r)].
Proof.
  intros Hin.
  destruct (insert_in_run w req table r answer Hin) as (Hauth & Hvalid & -> & -> & _).
  repeat split; try assumption. apply inserts_valid; assumption.
Qed.

(** Every row handed to the store is a valid reading: a non-empty string
    [asset_id], a temperature in [-50, 150] and non-negative pressure,
    vibration and energy consumption, none of them NaN. *)
Theorem stored_row_is_valid
    (w : world) (req : request) (table : string) (r : row)
    (answer : completion InsertResponse) :
  In (Insert table r answer) (run w req) ->
  exists s t p v e,
    row_asset_id r = VStr s /\ s <> "" /\
    row_temperature r = VNum t /\ temperature_in_range t = true /\
    row_pressure r = VNum p /\ non_negative p = true /\
    row_vibration r = VNum v /\ non_negative v = true /\
    row_energy_consumption r = VNum e /\ non_negative e = true.
Proof.
  intros Hin.
  destruct (insert_in_run w req table r answer Hin) as (_ & Hvalid & _ & -> & _).
  destruct (validate_null_inv _ Hvalid)
    as (props & s & t & p & v & e & Hbody & Hs & Hne & Ht & Hp & Hv & He & Hrange).
  exists s, t, p, v, e. unfold row_of. rewrite Hbody. cbn [property].
  cbn [row_asset_id row_temperature row_pressure row_vibration row_energy_consumption].
  rewrite Hs, Ht, Hp, Hv, He. cbn [default from_option id].
  destruct Hrange as (? & ? & ? & ?). repeat split; assumption || reflexivity.
Qed.

Lemma validate_null_intro (props : gmap string value) (s : string) (t p v e : Num.number) :
  props !! "asset_id" = Some (VStr s) -> s <> "" ->
  props !! "temperature" = Some (VNum t) ->
  props !! "pressure" = Some (VNum p) ->
  props !! "vibration" = Some (VNum v) ->
  props !! "energy_consumption" = Some (VNum e) ->
  temperature_in_range t = true ->
  non_negative p = true -> non_negative v = true -> non_negative e = true ->
  validateSensorData (VObj props) = Normal None.
Proof.
  intros Hs Hne Ht Hp Hv He Hrange Hpp Hvp Hep.
  apply andb_true_iff in Hrange as [Hlo Hhi].
  destruct (le_true_not_nan _ _ Hlo) as [_ Hnt].
  destruct (le_true_not_nan _ _ Hpp) as [_ Hnp].
  destruct (le_true_not_nan _ _ Hvp) as [_ Hnv].
  destruct (le_true_not_nan _ _ Hep) as [_ Hnee].
  rewrite (validate_ranges props t p v e) by (try assumption; exists s; auto).
  rewrite (lt_false_iff_le t Num.minus_fifty Hnt eq_refl),
    (gt_false_iff_le t Num.one_hundred_fifty Hnt eq_refl),
    (lt_false_iff_le p Num.zero Hnp eq_refl), (lt_false_iff_le v Num.zero Hnv eq_refl),
    (lt_false_iff_le e Num.zero Hnee eq_refl).
  change (Num.le Num.zero p) with (non_negative p).
  change (Num.le Num.zero v) with (non_negative v).
  change (Num.le Num.zero e) with (non_negative e).
  rewrite Hlo, Hhi, Hpp, Hvp, Hep. reflexivity.
Qed.

(** Validation returns [null] exactly on the objects whose [asset_id] is a
    non-empty string and whose four fields are numbers within the ranges. *)
Theorem validation_passes_iff (data : value) :
  validateSensorData data = Normal None <->
  exists props s t p v e,
    data = VObj props /\
    props !! "asset_id" = Some (VStr s) /\ s <> "" /\
    props !! "temperature" = Some (VNum t) /\
    props !! "pressure" = Some (VNum p) /\
    props !! "vibration" = Some (VNum v) /\
    props !! "energy_consumption" = Some (VNum e) /\
    temperature_in_range t = true /\
    non_negative p = true /\ non_negative v = true /\ non_negative e = true.
Proof.
  split; [apply validate_null_inv|].
  intros (props & s & t & p & v & e & -> & Hs & Hne & Ht & Hp & Hv & He
          & Hrange & Hpp & Hvp & Hep).
  exact (validate_null_intro props s t p v e Hs Hne Ht Hp Hv He Hrange Hpp Hvp Hep).
Qed.

(** For a body whose [asset_id] is a non-empty string and whose four fields
    are binary64 numbers, validation passes exactly when the exact value of
    the temperature lies between -50 and 150 and the exact values of
    pressure, vibration and energy consumption are zero or more (plus
    infinity included). *)
Theorem validation_passes_iff_values_in_range
    (props : gmap string value) (s : string) (t p v e : Num.number) :
  props !! "asset_id" = Some (VStr s) -> s <> "" ->
  props !! "temperature" = Some (VNum t) -> Num.valid t = true ->
  props !! "pressure" = Some (VNum p) -> Num.valid p = true ->
  props !! "vibration" = Some (VNum v) -> Num.valid v = true ->
  props !! "energy_consumption" = Some (VNum e) -> Num.valid e = true ->
  validateSensorData (VObj props) = Normal None <->
  value_between (-50) 150 t /\ value_at_least_zero p /\
  value_at_least_zero v /\ value_at_least_zero e.
Proof.
  intros Hs Hne Ht Hvt Hp Hvp Hv Hvv He Hve.
  unfold value_between, value_at_least_zero.
  rewrite <- (temperature_in_range_units t Hvt), <- (non_negative_units p Hvp),
    <- (non_negative_units v Hvv), <- (non_negative_units e Hve).
  split.
  - intros Hres.
    destruct (validate_null_inv _ Hres)
      as (props' & s' & t' & p' & v' & e' & [= <-] & _ & _ & Ht' & Hp' & Hv' & He' & Hr).
    rewrite Ht in Ht'. rewrite Hp in Hp'. rewrite Hv in Hv'. rewrite He in He'.
    injection Ht' as <-. injection Hp' as <-. injection Hv' as <-. injection He' as <-.
    exact Hr.
  - intros (Hrange & Hpp & Hvp' & Hep).
    exact (validate_null_intro props s t p v e Hs Hne Ht Hp Hv He Hrange Hpp Hvp' Hep).
Qed.

(** *** The body is read through five properties *)

Lemma check_numeric_step (data : value) (field : string) (rest : list string) :
  check_numeric data (field :: rest) =
  (value ← get data field;
   if rejected_as_number value
   then Normal (Some ("Invalid " +:+ field))
   else check_numeric data rest).
Proof. reflexivity. Qed.

Lemma check_numeric_agree (d1 d2 : value) (fields : list string) :
  (forall k, In k fields -> get d1 k = get d2 k) ->
  check_numeric d1 fields = check_numeric d2 fields.
Proof.
  induction fields as [|f fields IH]; intros Hagree; [reflexivity|].
  rewrite !check_numeric_step, (Hagree f) by (left; reflexivity).
  rewrite IH by (intros k Hk; apply Hagree; right; exact Hk). reflexivity.
Qed.

Lemma validate_agree (d1 d2 : value) :
  (forall k, In k fields_read -> get d1 k = get d2 k) ->
  validateSensorData d1 = validateSensorData d2.
Proof.
  intros Hagree. unfold validateSensorData.
  rewrite (check_numeric_agree d1 d2 numericFields)
    by (intros k Hk; apply Hagree; right; exact Hk).
  rewrite !(Hagree "asset_id"), !(Hagree "temperature"), !(Hagree "pressure"),
    !(Hagree "vibration"), !(Hagree "energy_consumption")
    by (cbn; tauto).
  reflexivity.
Qed.

Lemma store_agree (req1 req2 : request) :
  query_timestamp req1 = query_timestamp req2 ->
  (forall k, In k fields_read -> get (body req1) k = get (body req2) k) ->
  store req1 = store req2.
Proof.
  intros Hq Hagree. unfold store.
  rewrite !(Hagree "asset_id"), !(Hagree "temperature"), !(Hagree "pressure"),
    !(Hagree "vibration"), !(Hagree "energy_consumption"), Hq
    by (cbn; tauto).
  reflexivity.
Qed.

(** Two requests with the same header and query whose bodies agree on
    [asset_id] and the four numeric fields are handled alike, call for call:
    whatever else a body carries is neither looked at nor stored. *)
Theorem body_read_through_five_fields (w : world) (req1 req2 : request) :
  headers_authorization req1 = headers_authorization req2 ->
  query_timestamp req1 = query_timestamp req2 ->
  (forall k, In k fields_read -> get (body req1) k = get (body req2) k) ->
  handler req1 w [] = handler req2 w [].
Proof.
  intros Hh Hq Hagree. unfold handler, validate_then_store.
  rewrite Hh, (validate_agree _ _ Hagree), (store_agree _ _ Hq Hagree). reflexivity.
Qed.

(** Adding or changing any other property of an object body changes
    nothing. *)
Lemma other_property_not_read (props : gmap string value) (k : string) (v : value) :
  ~ In k fields_read ->
  forall f, In f fields_read -> get (VObj (<[k := v]> props)) f = get (VObj props) f.
Proof.
  intros Hk f Hf. cbn [get]. rewrite lookup_insert_ne; [reflexivity|].
  intros ->. exact (Hk Hf).
Qed.

(** *** Success and failure *)

Lemma run_provider_throws (w : world) (req : request) (h : string) (e : exn) :
  headers_authorization req = Some h -> startsWith h "Bearer " = true ->
  getUser w (token_of h) = Throw e ->
  run w req = [GetUser (token_of h) (Throw e);
               ConsoleError "Error processing request:" (LogExn e);
               Respond 500 (ErrorResponse "Internal server error")].
Proof.
  intros Hh Hb Hg. generalize (run_path w req). generalize (run w req) as tr.
  intros tr [ Hno | h' e' Hh' _ Hg' | h' answer' Hh' _ Hg' _ | h' answer' Hh' _ Hg' _ _ ].
  - rewrite (Hno h Hh) in Hb. discriminate.
  - assert (h' = h) as -> by congruence. congruence.
  - congruence.
  - congruence.
Qed.

(** The answer is 200 exactly when a row was handed to the store and the
    store answered without an error. *)
Theorem ok_iff_stored (w : world) (req : request) :
  (exists json, In (Respond 200 json) (run w req)) <->
  (exists r a, In (Insert "sensor_readings" r (Normal a)) (run w req) /\
               truthy (insertError a) = false).
Proof.
  split.
  - intros [json Hin]. revert Hin.
    generalize (run_path w req). generalize (run w req) as tr.
    intros tr [ _ | h ex _ _ _ | h ans _ _ _ _ | h ans _ _ _ _ _ ];
      try (cbn; intuition discriminate).
    unfold after_token.
    destruct (validateSensorData (body req)) as [[msg|]|ex];
      try (cbn; intuition discriminate).
    intros [Hin|Hin]; [discriminate|].
    apply in_app_or in Hin as [Hin|[Hin|Hin]].
    + exfalso. revert Hin. unfold clock_reads.
      destruct (query_timestamp req) as [ts|]; [destruct (String.eqb ts "")|];
        cbn; intuition discriminate.
    + discriminate.
    + destruct (insert w "sensor_readings" (row_of w req)) as [a|ex] eqn:Hans;
        [|cbn in Hin; intuition discriminate].
      cbn in Hin. destruct (truthy (insertError a)) eqn:Herr;
        [cbn in Hin; intuition discriminate|].
      exists (row_of w req), a. split; [|exact Herr].
      right. apply in_or_app. right. left. reflexivity.
  - intros (r & a & Hin & Herr).
    destruct (insert_in_run w req _ _ _ Hin) as (_ & _ & _ & -> & Hans & ->).
    rewrite <- Hans. cbn [after_insert]. rewrite Herr.
    eexists. right. apply in_or_app. right. right. left. reflexivity.
Qed.

(** The answer is 400 with a message exactly when the token was accepted
    and validation returned that message; nothing is stored then. *)
Theorem bad_request_iff (w : world) (req : request) (msg : string) :
  In (Respond 400 (ErrorResponse msg)) (run w req) <->
  authenticated w req /\ validateSensorData (body req) = Normal (Some msg).
Proof.
  split.
  - generalize (run_path w req). generalize (run w req) as tr.
    intros tr [ _ | h ex _ _ _ | h ans _ _ _ _ | h ans Hh Hb Hg He Hu ];
      try (cbn; intuition discriminate).
    unfold after_token.
    destruct (validateSensorData (body req)) as [[msg'|]|ex];
      try (cbn; intuition discriminate).
    + intros [Hin|[Hin|[]]]; [discriminate|]. injection Hin as ->.
      split; [exists h, ans; auto|reflexivity].
    + intros [Hin|Hin]; [discriminate|]. exfalso.
      apply in_app_or in Hin as [Hin|[Hin|Hin]]; [|discriminate|].
      * revert Hin. unfold clock_reads.
        destruct (query_timestamp req) as [ts|]; [destruct (String.eqb ts "")|];
          cbn; intuition discriminate.
      * revert Hin.
        destruct (insert w "sensor_readings" (row_of w req)) as [a|ex]; cbn;
          [destruct (truthy (insertError a)); cbn|]; intuition discriminate.
  - intros [Hauth Hinvalid].
    destruct Hauth as (h & answer & Hh & Hb & Hg & He & Hu).
    rewrite (run_authenticated w req h answer Hh Hb Hg He Hu).
    unfold after_token. rewrite Hinvalid. right. left. reflexivity.
Qed.

(** *** Exceptions *)

(** When the call to the authentication provider rejects, the answer is
    500 ['Internal server error'], the exception goes to the console and
    nothing is stored. *)
Theorem provider_rejection_is_internal_error
    (w : world) (req : request) (h : string) (e : exn) :
  headers_authorization req = Some h -> startsWith h "Bearer " = true ->
  getUser w (token_of h) = Throw e ->
  responses (run w req) = [(500, ErrorResponse "Internal server error")] /\
  inserts (run w req) = [] /\
  In (ConsoleError "Error processing request:" (LogExn e)) (run w req).
Proof.
  intros Hh Hb Hg. rewrite (run_provider_throws w req h e Hh Hb Hg).
  repeat split; try reflexivity. right. left. reflexivity.
Qed.

(** A body that is [null] or [undefined] does not fail validation with a
    400: the property read throws, and an authenticated request is answered
    500 ['Internal server error'], with nothing stored. *)
Theorem missing_body_is_internal_error (w : world) (req : request) :
  authenticated w req ->
  body req = VNull \/ body req = VUndefined ->
  responses (run w req) = [(500, ErrorResponse "Internal server error")] /\
  inserts (run w req) = [] /\
  In (ConsoleError "Error processing request:" (LogExn TypeError)) (run w req).
Proof.
  intros (h & answer & Hh & Hb & Hg & He & Hu) Hbody.
  rewrite (run_authenticated w req h answer Hh Hb Hg He Hu).
  unfold after_token.
  assert (Hthrow : validateSensorData (body req) = Throw TypeError)
    by (destruct Hbody as [-> | ->]; reflexivity).
  rewrite Hthrow. repeat split; try reflexivity. right. left. reflexivity.
Qed.

(** When the insert call itself rejects, the answer is 500 ['Internal
    server error'], the exception goes to the console, and the insert is
    not tried again. *)
Theorem insert_rejection_is_internal_error
    (w : world) (req : request) (table : string) (r : row) (e : exn) :
  In (Insert table r (Throw e)) (run w req) ->
  responses (run w req) = [(500, ErrorResponse "Internal server error")] /\
  inserts (run w req) = [(table, r)] /\
  In (ConsoleError "Error processing request:" (LogExn e)) (run w req).
Proof.
  intros Hin.
  destruct (insert_in_run w req _ _ _ Hin) as (Hauth & Hvalid & -> & -> & Hans & Hrun).
  split; [|split].
  - rewrite Hrun, <- Hans. unfold responses. cbn [omap list_omap].
    rewrite omap_app. fold (responses (clock_reads w req)).
    rewrite (proj2 (clock_reads_quiet w req)). reflexivity.
  - apply inserts_valid; assumption.
  - rewrite Hrun, <- Hans. right. apply in_or_app. right. right. left. reflexivity.
Qed.

(** *** The token *)

Lemma split_without_separator (s : string) (sep : ascii) :
  contains sep s = false -> split s sep = [s].
Proof.
  induction s as [|c s IH]; [reflexivity|].
  cbn [contains split]. intros H. apply orb_false_iff in H as [Hc Hs].
  rewrite Hc, (IH Hs). reflexivity.
Qed.

Lemma split_at_first_separator (s rest : string) (sep : ascii) :
  contains sep s = false ->
  split (s +:+ String sep rest) sep = s :: split rest sep.
Proof.
  induction s as [|c s IH].
  - intros _. change ("" +:+ String sep rest) with (String sep rest).
    cbn [split]. rewrite Ascii.eqb_refl. reflexivity.
  - cbn [contains]. intros H. apply orb_false_iff in H as [Hc Hs].
    change (String c s +:+ String sep rest) with (String c (s +:+ String sep rest)).
    cbn [split]. rewrite Hc, (IH Hs). reflexivity.
Qed.

(** A split never comes back empty, and its pieces joined by the separator
    are the string. *)
Lemma split_join (s : string) (sep : ascii) :
  split s sep <> [] /\ join (split s sep) sep = s.
Proof.
  induction s as [|c s [Hne IH]]; [split; [discriminate|reflexivity]|].
  cbn [split]. destruct (split s sep) as [|piece pieces]; [contradiction|].
  destruct (Ascii.eqb_spec c sep) as [->|Hc]; (split; [discriminate|]).
  - change (join ("" :: piece :: pieces) sep)
      with ("" +:+ String sep (join (piece :: pieces) sep)).
    rewrite IH. reflexivity.
  - rewrite <- IH. destruct pieces; reflexivity.
Qed.

Lemma getUser_calls_after_token (w : world) (req : request) :
  getUser_calls (after_token w req) = [].
Proof.
  unfold after_token.
  destruct (validateSensorData (body req)) as [[msg|]|e]; try reflexivity.
  unfold getUser_calls. rewrite omap_app. cbn [omap list_omap].
  replace (omap _ (clock_reads w req)) with (@nil (option string)).
  2:{ unfold clock_reads.
      destruct (query_timestamp req) as [ts|]; [destruct (String.eqb ts "")|];
        reflexivity. }
  destruct (insert w "sensor_readings" (row_of w req)) as [a|e]; cbn;
    [destruct (truthy (insertError a))|]; reflexivity.
Qed.

(** With a bearer header the provider is asked once, about [token_of]. *)
Lemma getUser_calls_bearer (w : world) (req : request) (h : string) :
  headers_authorization req = Some h -> startsWith h "Bearer " = true ->
  getUser_calls (run w req) = [token_of h].
Proof.
  intros Hh Hb. generalize (run_path w req). generalize (run w req) as tr.
  intros tr [ Hno | h' e Hh' _ _ | h' answer Hh' _ _ _ | h' answer Hh' _ _ _ _ ].
  - rewrite (Hno h Hh) in Hb. discriminate.
  - assert (h' = h) as -> by congruence. reflexivity.
  - assert (h' = h) as -> by congruence. reflexivity.
  - assert (h' = h) as -> by congruence.
    unfold getUser_calls. cbn [omap list_omap].
    fold (getUser_calls (after_token w req)).
    rewrite getUser_calls_after_token. reflexivity.
Qed.

Lemma token_of_bearer (tok rest : string) :
  contains " " tok = false ->
  token_of ("Bearer " +:+ tok) = Some tok /\
  token_of ("Bearer " +:+ tok +:+ String " " rest) = Some tok.
Proof.
  intros Htok. unfold token_of.
  change ("Bearer " +:+ tok) with ("Bearer" +:+ String " " tok).
  change ("Bearer " +:+ tok +:+ String " " rest)
    with ("Bearer" +:+ String " " (tok +:+ String " " rest)).
  rewrite !(split_at_first_separator "Bearer") by reflexivity.
  rewrite (split_without_separator tok) by exact Htok.
  rewrite (split_at_first_separator tok) by exact Htok.
  split; reflexivity.
Qed.

Lemma startsWith_append (p s : string) : startsWith (p +:+ s) p = true.
Proof.
  unfold startsWith. induction p as [|c p IH]; [destruct s; reflexivity|].
  change (String c p +:+ s) with (String c (p +:+ s)). cbn [String.prefix].
  destruct (ascii_dec c c) as [_|Hc]; [exact IH|contradiction].
Qed.

(** The token handed to the provider is the first word after ['Bearer ']:
    whatever follows a further space is dropped, and ['Bearer '] alone asks
    about the empty token. *)
Theorem token_is_first_word (w : world) (req : request) (tok rest : string) :
  contains " " tok = false ->
  headers_authorization req = Some ("Bearer " +:+ tok) \/
  headers_authorization req = Some ("Bearer " +:+ tok +:+ String " " rest) ->
  getUser_calls (run w req) = [Some tok].
Proof.
  intros Htok Hheader.
  destruct (token_of_bearer tok rest Htok) as [Hshort Hlong].
  destruct Hheader as [Hh|Hh].
  - rewrite (getUser_calls_bearer w req _ Hh (startsWith_append _ _)), Hshort.
    reflexivity.
  - rewrite (getUser_calls_bearer w req _ Hh (startsWith_append "Bearer " _)), Hlong.
    reflexivity.
Qed.

(** ** The schema migration: who may do what *)

Lemma filter_unique_user_id (rows : list Schema.user_roles_row) (uid : string) :
  Schema.unique_user_id rows ->
  (length (filter (fun r => Schema.user_id r = Some uid) rows) <= 1)%nat.
Proof.
  unfold Schema.unique_user_id. induction rows as [|r rows IH]; [cbn; lia|].
  intros Hunique. cbn [omap list_omap] in Hunique.
  rewrite filter_cons. destruct (decide (Schema.user_id r = Some uid)) as [Hr|Hr].
  - rewrite Hr in Hunique. apply NoDup_cons in Hunique as [Hnotin _].
    assert (Hnone : filter (fun r => Schema.user_id r = Some uid) rows = []).
    { destruct (filter (fun r => Schema.user_id r = Some uid) rows) as [|r' more]
        eqn:Hfilter; [reflexivity|].
      assert (Hr' : r' ∈ filter (fun r => Schema.user_id r = Some uid) rows)
        by (rewrite Hfilter; left).
      apply list_elem_of_filter in Hr' as [Hid Hin].
      exfalso. apply Hnotin. apply list_elem_of_omap. exists r'. split; assumption. }
    rewrite Hnone. cbn. lia.
  - apply IH. destruct (Schema.user_id r); [apply NoDup_cons in Hunique as [_ ?]|];
      assumption.
Qed.

(** Under [UNIQUE(user_id)], [get_user_role()] never meets two rows: it
    returns the role of the user's row, and [NULL] exactly when the user has
    no row. *)
Theorem get_user_role_unique
    (rows : list Schema.user_roles_row) (uid : string) (r : Schema.user_role) :
  Schema.unique_user_id rows ->
  Schema.get_user_role rows uid <> Schema.MoreThanOneRow /\
  (Schema.get_user_role rows uid = Schema.Value r <->
   {| Schema.user_id := Some uid; Schema.role := r |} ∈ rows) /\
  (Schema.get_user_role rows uid = Schema.Null <->
   forall row, row ∈ rows -> Schema.user_id row <> Some uid).
Proof.
  intros Hunique. pose proof (filter_unique_user_id rows uid Hunique) as Hlen.
  unfold Schema.get_user_role.
  destruct (filter (fun r => Schema.user_id r = Some uid) rows) as [|row [|row' more]]
    eqn:Hfilter; [| |cbn in Hlen; lia].
  - split; [discriminate|]. split.
    + split; [discriminate|]. intros Hin.
      assert (Hmem : {| Schema.user_id := Some uid; Schema.role := r |}
                     ∈ filter (fun r => Schema.user_id r = Some uid) rows)
        by (apply list_elem_of_filter; split; [reflexivity|exact Hin]).
      rewrite Hfilter in Hmem. inversion Hmem.
    + split; [|reflexivity]. intros _ row Hin Hrow.
      assert (Hmem : row ∈ filter (fun r => Schema.user_id r = Some uid) rows)
        by (apply list_elem_of_filter; split; assumption).
      rewrite Hfilter in Hmem. inversion Hmem.
  - assert (Hrow : row ∈ filter (fun r => Schema.user_id r = Some uid) rows)
      by (rewrite Hfilter; left).
    apply list_elem_of_filter in Hrow as [Hid Hin].
    split; [discriminate|]. split.
    + split.
      * intros [= <-]. destruct row as [id rl]. cbn in Hid. subst id. exact Hin.
      * intros Hin'.
        assert (Hmem : {| Schema.user_id := Some uid; Schema.role := r |}
                       ∈ filter (fun r => Schema.user_id r = Some uid) rows)
          by (apply list_elem_of_filter; split; [reflexivity|exact Hin']).
        rewrite Hfilter in Hmem. apply list_elem_of_singleton in Hmem as <-. reflexivity.
    + split; [discriminate|]. intros Hnone. exfalso. exact (Hnone row Hin Hid).
Qed.

(** Deciding a permission question by running through the policies. *)
Ltac decide_permissions :=
  repeat match goal with
         | who : option Schema.user_role |- _ => destruct who as [[]|]
         | own : bool |- _ => destruct own
         | c : Schema.command |- _ => destruct c
         | t : Schema.table |- _ => destruct t
         end;
  vm_compute; intuition (discriminate || congruence).

(** A sensor reading may be inserted by an authenticated session exactly
    when its role is admin or engineer. *)
Theorem sensor_reading_insert_iff (who : option Schema.user_role) (own : bool) :
  Schema.permitted Schema.INSERT Schema.sensor_readings who own = true <->
  who = Some Schema.admin \/ who = Some Schema.engineer.
Proof. decide_permissions. Qed.


(** The only thing an operator may write is a new alert. *)
Theorem operator_writes_alerts_only
    (c : Schema.command) (t : Schema.table) (own : bool) :
  c <> Schema.SELECT ->
  Schema.permitted c t (Some Schema.operator) own = true <->
  t = Schema.alerts /\ c = Schema.INSERT.
Proof. intros Hc. decide_permissions. Qed.

(** The roles are ordered: what a session without a role may do an operator
    may do, what an operator may do an engineer may do, and what an
    engineer may do an admin may do. *)
Theorem roles_are_ordered (c : Schema.command) (t : Schema.table) (own : bool) :
  (Schema.permitted c t None own = true ->
   Schema.permitted c t (Some Schema.operator) own = true) /\
  (Schema.permitted c t (Some Schema.operator) own = true ->
   Schema.permitted c t (Some Schema.engineer) own = true) /\
  (Schema.permitted c t (Some Schema.engineer) own = true ->
   Schema.permitted c t (Some Schema.admin) own = true).
Proof. decide_permissions. Qed.

(** A session without a role may only read: sensor readings, alerts and
    maintenance logs, and its own row of [user_roles]. *)
Theorem no_role_reads_only (c : Schema.command) (t : Schema.table) (own : bool) :
  Schema.permitted c t None own = true <->
  c = Schema.SELECT /\
  (t = Schema.sensor_readings \/ t = Schema.alerts \/ t = Schema.maintenance_logs \/
   (t = Schema.user_roles /\ own = true)).
Proof. decide_permissions. Qed.


(** What an admin may do: everything, except updating or deleting a sensor
    reading and deleting an alert. *)
Theorem admin_permissions (c : Schema.command) (t : Schema.table) (own : bool) :
  Schema.permitted c t (Some Schema.admin) own = false <->
  (t = Schema.sensor_readings /\ (c = Schema.UPDATE \/ c = Schema.DELETE)) \/
  (t = Schema.alerts /\ c = Schema.DELETE).
Proof. decide_permissions. Qed.

(** ** Further properties at concrete requests *)

Lemma sample_insert_in_run :
  In (Insert "sensor_readings" (sample_row "2025-03-25T19:20:21.000Z")
        (Normal {| insertError := VNull |}))
     (run sample_world sample_request).
Proof. right. right. left. reflexivity. Defined.

Lemma insert_needs_token_and_valid_body_witness :
  In (Insert "sensor_readings" (sample_row "2025-03-25T19:20:21.000Z")
        (Normal {| insertError := VNull |}))
     (run sample_world sample_request) /\
  authenticated sample_world sample_request /\
  validateSensorData (body sample_request) = Normal None /\
  inserts (run sample_world sample_request) =
    [("sensor_readings", sample_row "2025-03-25T19:20:21.000Z")].
Proof.
  split; [exact sample_insert_in_run|].
  exact (proj2 (insert_needs_token_and_valid_body sample_world sample_request _ _ _
                  sample_insert_in_run)).
Defined.

Lemma stored_row_is_valid_witness :
  exists s t p v e,
    row_asset_id (sample_row "2025-03-25T19:20:21.000Z") = VStr s /\ s <> "" /\
    row_temperature (sample_row "2025-03-25T19:20:21.000Z") = VNum t /\
    temperature_in_range t = true /\
    row_pressure (sample_row "2025-03-25T19:20:21.000Z") = VNum p /\
    non_negative p = true /\
    row_vibration (sample_row "2025-03-25T19:20:21.000Z") = VNum v /\
    non_negative v = true /\
    row_energy_consumption (sample_row "2025-03-25T19:20:21.000Z") = VNum e /\
    non_negative e = true.
Proof.
  exact (stored_row_is_valid sample_world sample_request _ _ _ sample_insert_in_run).
Defined.

Lemma validation_passes_iff_values_in_range_witness :
  validateSensorData (VObj sample_props) = Normal None <->
  value_between (-50) 150 (Num.of_Z 25) /\ value_at_least_zero (Num.of_Z 10) /\
  value_at_least_zero (binary_normalize Num.prec Num.emax 1 (-1) false) /\
  value_at_least_zero (Num.of_Z 100).
Proof.
  assert (Hne : "A1" <> "") by discriminate.
  exact (validation_passes_iff_values_in_range sample_props "A1"
           (Num.of_Z 25) (Num.of_Z 10)
           (binary_normalize Num.prec Num.emax 1 (-1) false) (Num.of_Z 100)
           eq_refl Hne eq_refl eq_refl eq_refl eq_refl eq_refl eq_refl eq_refl eq_refl).
Defined.

Lemma body_read_through_five_fields_witness :
  handler annotated_request sample_world [] = handler sample_request sample_world [].
Proof.
  apply (body_read_through_five_fields sample_world annotated_request sample_request);
    [reflexivity | reflexivity |].
  intros k Hk. apply (other_property_not_read sample_props "comment");
    [|exact Hk].
  cbn. intuition discriminate.
Defined.

Lemma provider_rejection_is_internal_error_witness :
  getUser provider_down_world (token_of "Bearer good") = Throw provider_down_error /\
  responses (run provider_down_world sample_request) =
    [(500, ErrorResponse "Internal server error")] /\
  inserts (run provider_down_world sample_request) = [] /\
  In (ConsoleError "Error processing request:" (LogExn provider_down_error))
     (run provider_down_world sample_request).
Proof.
  split; [reflexivity|].
  exact (provider_rejection_is_internal_error provider_down_world sample_request
           "Bearer good" provider_down_error eq_refl eq_refl eq_refl).
Defined.

Lemma null_body_request_authenticated : authenticated sample_world null_body_request.
Proof.
  exists "Bearer good", {| user := VObj {["id" := VStr "u1"]}; authError := VNull |}.
  repeat split; reflexivity.
Defined.

Lemma missing_body_is_internal_error_witness :
  body null_body_request = VNull /\
  responses (run sample_world null_body_request) =
    [(500, ErrorResponse "Internal server error")] /\
  inserts (run sample_world null_body_request) = [] /\
  In (ConsoleError "Error processing request:" (LogExn TypeError))
     (run sample_world null_body_request).
Proof.
  split; [reflexivity|].
  exact (missing_body_is_internal_error sample_world null_body_request
           null_body_request_authenticated (or_introl eq_refl)).
Defined.

Lemma insert_rejection_is_internal_error_witness :
  responses (run store_down_world sample_request) =
    [(500, ErrorResponse "Internal server error")] /\
  inserts (run store_down_world sample_request) =
    [("sensor_readings", sample_row "2025-03-25T19:20:21.000Z")] /\
  In (ConsoleError "Error processing request:" (LogExn provider_down_error))
     (run store_down_world sample_request).
Proof.
  apply (insert_rejection_is_internal_error store_down_world sample_request
           "sensor_readings" (sample_row "2025-03-25T19:20:21.000Z") provider_down_error).
  right. right. left. reflexivity.
Defined.

Lemma token_is_first_word_witness :
  contains " " "good" = false /\
  getUser_calls (run sample_world trailing_words_request) = [Some "good"].
Proof.
  split; [reflexivity|].
  apply (token_is_first_word sample_world trailing_words_request "good" "and more");
    [reflexivity|]. right. reflexivity.
Defined.

Lemma sample_user_roles_unique : Schema.unique_user_id sample_user_roles.
Proof.
  unfold Schema.unique_user_id. apply (bool_decide_unpack _). vm_compute. exact I.
Defined.

Lemma get_user_role_unique_witness :
  Schema.unique_user_id sample_user_roles /\
  Schema.get_user_role sample_user_roles "u2" <> Schema.MoreThanOneRow /\
  (Schema.get_user_role sample_user_roles "u2" = Schema.Value Schema.operator <->
   {| Schema.user_id := Some "u2"; Schema.role := Schema.operator |} ∈ sample_user_roles) /\
  (Schema.get_user_role sample_user_roles "u2" = Schema.Null <->
   forall row, row ∈ sample_user_roles -> Schema.user_id row <> Some "u2").
Proof.
  split; [exact sample_user_roles_unique|].
  exact (get_user_role_unique sample_user_roles "u2" Schema.operator
           sample_user_roles_unique).
Defined.

Lemma operator_writes_alerts_only_witness :
  Schema.INSERT <> Schema.SELECT /\
  (Schema.permitted Schema.INSERT Schema.alerts (Some Schema.operator) false = true <->
   Schema.alerts = Schema.alerts /\ Schema.INSERT = Schema.INSERT).
Proof.
  assert (Hc : Schema.INSERT <> Schema.SELECT) by discriminate.
  split; [exact Hc|].
  exact (operator_writes_alerts_only Schema.INSERT Schema.alerts false Hc).
Defined.
